(** * dvrip: the command-line front end ([dvrip/__main__.py])

    A shallow embedding of the interactive layer of the DVRIP client:
    [prog], [ioerr], [connect], [run_info], [run_time], [usage] and [run].

    The front end is effectful Python: it prints, terminates the process
    with [exit], and talks to the device through a [DVRIPClient].  It is
    embedded in a writer-and-exception monad [io]: a computation yields the
    list of observable events it performed (lines printed, requests issued
    to the device, the password prompt) and either a value or the exception
    that left it.  [exit(code)] is the exception [SystemExit code], as in
    Python.

    What the file imports from elsewhere (the Python library, the
    [dateparser] package, the [dvrip.io] and [dvrip.errors] modules, the
    process environment and the device at the other end of the socket) is
    gathered in the record [World]; every function of the front end takes
    the world it runs in as its first argument. *)

From Stdlib Require Import ZArith List String Ascii Lia Bool.
From stdpp Require Import base option list strings gmap pretty.

Local Open Scope Z_scope.
Local Open Scope string_scope.
Local Open Scope list_scope.

(** ** Exit statuses ([os.EX_*], with the BSD values of the fallback) *)

Definition EX_USAGE    : Z := 64.
Definition EX_NOHOST   : Z := 68.
Definition EX_IOERR    : Z := 74.
Definition EX_PROTOCOL : Z := 76.

(** ** Data of the decoded replies, as the front end reads them *)

(** A [datetime.datetime]; the front end only looks at [tzinfo] and hands
    the value to [isoformat].  [tzinfo] is the offset in minutes, if any. *)
Record datetime := Datetime {
  year : Z; month : Z; day : Z;
  hour : Z; minute : Z; second : Z; microsecond : Z;
  tzinfo : option Z
}.

Record SystemInfo := {
  chassis : string; board : string; serial : string;
  hardware : string; eeprom : string; software : string; build : string;
  videoin : Z; videoout : Z; commin : Z; commout : Z;
  triggerin : Z; triggerout : Z; audioin : Z; views : Z;
  uptime : Z
}.

Record Partition := {
  current : bool;
  psize : Z;                      (* [part.size] *)
  free : Z;
  viewedstart : datetime; viewedend : datetime;
  unviewedstart : datetime; unviewedend : datetime
}.

Record Disk := {
  number : Z;
  parts : Z;
  partinfo : list Partition
}.

Record Channel := {
  bitrate : Z;
  recording : bool
}.

(** The five trigger attributes; [None] is an attribute that is absent. *)
Record Triggers := {
  in_ : option Z; out : option Z; obscure : option Z;
  disconnect : option Z; motion : option Z
}.

Record ActivityInfo := {
  channels : list Channel;
  triggers : Triggers
}.

(** The attributes of an [OSError] that [ioerr] reads. *)
Record OSErr := {
  filename : option string;
  strerror : option string
}.

(** ** Exceptions, events and the [io] monad *)

Inductive exn :=
| DVRIPDecodeError (text : string)     (* [text] is [str(e)] *)
| DVRIPRequestError (text : string)
| OSError (e : OSErr)
| EOFError
| SystemExit (code : Z)
| OtherError (name : string).

Inductive outcome (A : Type) :=
| Return (a : A)
| Raise (e : exn).
Arguments Return {A} a.
Arguments Raise {A} e.

Inductive stream := stdout | stderr.

(** The handle returned by [DVRIPClient(Socket(AF_INET, SOCK_STREAM))]. *)
Inductive DVRIPClient : Set := Client.

(** The methods of [DVRIPClient] the front end calls. *)
Inductive request :=
| ReqConnect (host : string) (serv : Z) (user password : string)
| ReqSystemInfo
| ReqStorageInfo
| ReqActivityInfo
| ReqGetTime                          (* [conn.time()] *)
| ReqSetTime (t : datetime)           (* [conn.time(t)] *)
| ReqReboot
| ReqLogout.

Inductive event :=
| Print (file : stream) (text : string)
| Call (r : request)
| Getpass (prompt : string).

Definition io (A : Type) : Type := list event * outcome A.

Definition trace {A} (m : io A) : list event := fst m.
Definition result {A} (m : io A) : outcome A := snd m.

Definition ret {A} (a : A) : io A := ([], Return a).

Definition bind {A B} (m : io A) (f : A -> io B) : io B :=
  match m with
  | (t, Return a) => let '(t', r) := f a in (t ++ t', r)
  | (t, Raise e) => (t, Raise e)
  end.

#[global] Instance io_ret : MRet io := @ret.
#[global] Instance io_bind : MBind io := fun A B f m => bind m f.

(** [try: m  except ...: h e]; [h e = None] when no clause catches [e]. *)
Definition try_except {A} (m : io A) (h : exn -> option (io A)) : io A :=
  match m with
  | (t, Raise e) =>
      match h e with
      | Some k => let '(t', r) := k in (t ++ t', r)
      | None => (t, Raise e)
      end
  | (t, Return a) => (t, Return a)
  end.

(** [try: m  finally: fin].  The [finally] block always runs; when it
    raises, its exception replaces whatever left [m]. *)
Definition try_finally {A} (m : io A) (fin : io unit) : io A :=
  let '(t, r) := m in
  let '(t', r') := fin in
  (t ++ t', match r' with Raise e => Raise e | Return _ => r end).

Definition print (file : stream) (text : string) : io unit :=
  ([Print file text], Return tt).

Definition exit {A} (code : Z) : io A := ([], Raise (SystemExit code)).

(** A method call on the client: the request is observed, the device (or
    the socket underneath) decides how the call ends. *)
Definition call {A} (r : request) (reply : outcome A) : io A :=
  ([Call r], reply).

(** ** The world the front end runs in *)

Record World := {
  argv0 : string;                       (* [sys.argv[0]] *)
  (* the characters of a [str], in the order [for c in s] yields them *)
  characters : string -> list string;
  (* [c.isalnum()] of a [str] of one character *)
  isalnum : string -> bool;
  executable : string;                  (* [sys.executable] *)
  environ : gmap string string;         (* [os.environ] *)
  (* [getopt(args, 'hp:u:')]; [None] is [GetoptError] *)
  getopt : list string -> option (list (string * string) * list string);
  (* [getpass(prompt)] *)
  getpass : string -> outcome string;
  (* [int(port, base=0)]; [None] is [ValueError] *)
  int_base0 : string -> option Z;
  (* the two lookups return, or raise: an [OSError] when the name is not
     found, something else (a [UnicodeError], say) on a name they refuse *)
  getservbyname : string -> outcome Z;
  gethostbyname : string -> outcome string;
  (* [Socket(AF_INET, SOCK_STREAM)]; [Some e] is the [OSError] it raises *)
  socket_new : option OSErr;
  (* [dateparser.parse]; [None] is its [None] *)
  dateparse : string -> option datetime;
  isoformat : datetime -> string;
  (* the device, seen through the methods of the client *)
  dev_connect : string -> Z -> string -> string -> outcome unit;
  dev_systeminfo : outcome SystemInfo;
  dev_storageinfo : outcome (list Disk);
  dev_activityinfo : outcome ActivityInfo;
  dev_time : option datetime -> outcome datetime;
  dev_reboot : outcome unit;
  dev_logout : outcome unit;
  (* [dateparser] reads the ISO date the front end passes when no time is
     given, and reads it as a naive datetime *)
  dateparse_epoch :
    exists t, dateparse "1970-01-01" = Some t /\ tzinfo t = None
}.

(** ** Python library functions used by the front end *)

(** [str(x)] of an attribute that may be [None]. *)
Definition str_opt (o : option string) : string :=
  match o with Some s => s | None => "None" end.

(** [str(n)] of an [int]. *)
Definition str_int (n : Z) : string := pretty n.

(** ['{:02}'.format(n)]: zero-padded to width two, the sign included. *)
Definition fmt02 (n : Z) : string :=
  let s := str_int n in
  if (String.length s <? 2)%nat then "0" +:+ s else s.

(** [divmod(a, b)]: floor division and its remainder. *)
Definition divmod (a b : Z) : Z * Z := (a / b, a mod b).

(** [range(n)] *)
Definition range (n : Z) : list Z := map Z.of_nat (seq 0 (Z.to_nat n)).

(** [' '.join(line)] *)
Definition join (line : list string) : string := String.concat " " line.

(** [s.rstrip(c)] for a single character [c]. *)
Fixpoint rstrip (c : ascii) (s : string) : string :=
  match s with
  | EmptyString => EmptyString
  | String a r =>
      match rstrip c r with
      | EmptyString => if Ascii.eqb a c then EmptyString else String a EmptyString
      | r' => String a r'
      end
  end.

(** [os.path.basename(p)]: what follows the last slash. *)
Fixpoint basename_from (cur p : string) : string :=
  match p with
  | EmptyString => cur
  | String c r =>
      if Ascii.eqb c "/" then basename_from EmptyString r
      else basename_from (cur +:+ String c EmptyString) r
  end.
Definition basename (p : string) : string := basename_from EmptyString p.

(** Truth value of an [int] and of a [str]. *)
Definition truthy_int (n : Z) : bool := negb (n =? 0)%Z.
Definition truthy_str (s : string) : bool :=
  match s with EmptyString => false | _ => true end.
(** Truth value of an attribute that is an [int] or [None]. *)
Definition truthy (v : option Z) : bool :=
  match v with Some n => truthy_int n | None => false end.

Definition raise {A} (e : exn) : io A := ([], Raise e).

(** [for l in ls: print(l)] *)
Definition print_lines (ls : list string) : io unit :=
  foldr (fun l k => print stdout l ;; k) (mret tt) ls.

(** ** [prog] and [ioerr] *)

Definition prog (w : World) : string :=
  let name := basename (argv0 w) in
  if String.eqb name "__main__.py" || String.eqb name "-c"
  then executable w +:+ " -m dvrip"
  else name.

(** [ioerr(e, code)]; the default [code] is [EX_IOERR]. *)
Definition ioerr_message (e : OSErr) : string :=
  match filename e with
  | Some f => f +:+ ": " +:+ str_opt (strerror e)
  | None => str_opt (strerror e)
  end.

Definition ioerr {A} (e : OSErr) (code : Z) : io A :=
  print stderr (ioerr_message e) ;; exit code.

(** ** [connect] *)

Definition connect (w : World) (host port user password : string)
  : io DVRIPClient :=
  serv ← match int_base0 w port with
         | Some n => mret n
         | None =>
             match getservbyname w port with
             | Return n => mret n
             | Raise (OSError e) => ioerr e EX_NOHOST
             | Raise e => raise e
             end
         end;
  host ← match gethostbyname w host with
         | Return a => mret a
         | Raise (OSError e) => ioerr e EX_NOHOST
         | Raise e => raise e
         end;
  conn ← match socket_new w with
         | None => mret Client
         | Some e => raise (OSError e)
         end;
  try_except
    (call (ReqConnect host serv user password)
          (dev_connect w host serv user password))
    (fun e =>
       match e with
       | DVRIPDecodeError text => Some (print stderr text ;; exit EX_PROTOCOL)
       | DVRIPRequestError text => Some (print stderr text ;; exit 2)
       | OSError e => Some (ioerr e EX_IOERR)
       | _ => None
       end) ;;
  mret conn.

(** ** [run_info] *)

(** One turn of the loop over the attributes of the system line. *)
Definition attr_str (attr value : string) : list string :=
  if truthy_str value then [attr +:+ " " +:+ value] else [].
Definition attr_int (attr : string) (value : Z) : list string :=
  if truthy_int value then [attr +:+ " " +:+ str_int value] else [].

Definition system_line (info : SystemInfo) : string :=
  join ([chassis info; board info; serial info]
        ++ attr_str "hardware" (hardware info)
        ++ attr_str "eeprom" (eeprom info)
        ++ attr_str "software" (software info)
        ++ attr_str "build" (build info)
        ++ attr_int "videoin" (videoin info)
        ++ attr_int "videoout" (videoout info)
        ++ attr_int "commin" (commin info)
        ++ attr_int "commout" (commout info)
        ++ attr_int "triggerin" (triggerin info)
        ++ attr_int "triggerout" (triggerout info)
        ++ attr_int "audioin" (audioin info)
        ++ attr_int "views" (views info)).

Definition partition_line (w : World) (i : Z) (part : Partition) : string :=
  join (["  part " +:+ str_int i]
        ++ (if current part then ["current"] else [])
        ++ ["size " +:+ str_int (psize part)
            +:+ "M free " +:+ str_int (free part) +:+ "M"]
        ++ map (fun '(attr, date) => attr +:+ " " +:+ isoformat w date)
             [("viewedstart", viewedstart part);
              ("viewedend", viewedend part);
              ("unviewedstart", unviewedstart part);
              ("unviewedend", unviewedend part)]).

(** [for i, part in zip(range(disk.parts), disk.partinfo): ...] *)
Definition partition_lines (w : World) (disk : Disk) : list string :=
  map (fun '(i, part) => partition_line w i part)
      (zip (range (parts disk)) (partinfo disk)).

Definition disk_lines (w : World) (disk : Disk) : list string :=
  ("disk " +:+ str_int (number disk)) :: partition_lines w disk.

Definition channel_line (i : Z) (chan : Channel) : string :=
  "channel " +:+ str_int i +:+ " bitrate " +:+ str_int (bitrate chan)
  +:+ "K/s" +:+ (if recording chan then " recording" else "").

(** [for i, chan in zip(range(info.videoin), actv.channels): ...] *)
Definition channel_lines (info : SystemInfo) (actv : ActivityInfo)
  : list string :=
  map (fun '(i, chan) => channel_line i chan)
      (zip (range (videoin info)) (channels actv)).

Definition uptime_field (up : Z) : string :=
  let minutes := up in
  let '(hours, minutes) := divmod minutes 60 in
  let '(days, hours) := divmod hours 24 in
  if truthy_int days
  then "up P" +:+ str_int days +:+ "dT" +:+ fmt02 hours
       +:+ "h" +:+ fmt02 minutes +:+ "m"
  else "up PT" +:+ str_int hours +:+ "h" +:+ fmt02 minutes +:+ "m".

(** One turn of the loop over the trigger attributes. *)
Definition trigger_field (attr : string) (value : option Z) : list string :=
  match value with
  | Some n =>
      if truthy_int n then [rstrip "_" attr +:+ " " +:+ str_int n] else []
  | None => []
  end.

Definition trigger_fields (t : Triggers) : list string :=
  trigger_field "in_" (in_ t)
  ++ trigger_field "out" (out t)
  ++ trigger_field "obscure" (obscure t)
  ++ trigger_field "disconnect" (disconnect t)
  ++ trigger_field "motion" (motion t).

(** The list [line] of the status line, when it is joined. *)
Definition status_fields (w : World) (info : SystemInfo) (actv : ActivityInfo)
    (time : datetime) : list string :=
  let line := [isoformat w time; uptime_field (uptime info); "triggers"]
              ++ trigger_fields (triggers actv) in
  if (length line <=? 3)%nat then line ++ ["none"] else line.

Definition status_line (w : World) (info : SystemInfo) (actv : ActivityInfo)
    (time : datetime) : string :=
  join (status_fields w info actv time).

Definition run_info (w : World) (conn : DVRIPClient) (args : list string)
  : io unit :=
  match args with
  | [] => mret tt
  | _ =>
      let fail := negb (bool_decide (args = ["-h"])) in
      print (if fail then stderr else stdout)
            ("Usage: " +:+ prog w +:+ " ... info") ;;
      exit (if fail then EX_USAGE else 0)
  end ;;
  info ← call ReqSystemInfo (dev_systeminfo w);
  print stdout (system_line info) ;;
  disks ← call ReqStorageInfo (dev_storageinfo w);
  print_lines (flat_map (disk_lines w) disks) ;;
  actv ← call ReqActivityInfo (dev_activityinfo w);
  print_lines (channel_lines info actv) ;;
  time ← call ReqGetTime (dev_time w None);
  print stdout (status_line w info actv time).

(** ** [run_time] *)

Definition time_usage {A} (w : World) : io A :=
  print stdout ("Usage: " +:+ prog w +:+ " ... time [TIME]") ;;
  exit EX_USAGE.

Definition run_time (w : World) (conn : DVRIPClient) (args : list string)
  : io unit :=
  let time := dateparse w (match args with
                           | a :: _ => a
                           | [] => "1970-01-01"
                           end) in
  match time with
  | None => time_usage w
  | Some time =>
      if (2 <? length args)%nat || bool_decide (tzinfo time ≠ None)
      then time_usage w
      else
        t ← match args with
            | _ :: _ => call (ReqSetTime time) (dev_time w (Some time))
            | [] => call ReqGetTime (dev_time w None)
            end;
        print stdout (isoformat w t)
  end.

(** ** [usage] and [run] *)

Definition usage {A} (w : World) (code : Z) (file : stream) : io A :=
  print file ("Usage: " +:+ prog w
              +:+ " [-p PORT] [-u USERNAME] HOST COMMAND ...") ;;
  exit code.

(** The loop [for opt, arg in opts] of [run]; [n] is [len(opts)] and
    [port], [username] are the values the two variables hold so far. *)
Fixpoint run_opts (w : World) (n : nat) (opts : list (string * string))
    (port username : string) : io (string * string) :=
  match opts with
  | [] => mret (port, username)
  | (opt, arg) :: opts' =>
      let port := if String.eqb opt "-p" then arg else port in
      let username := if String.eqb opt "-u" then arg else username in
      (if String.eqb opt "-h"
       then (if negb (n =? 1)%nat then usage w EX_USAGE stderr else mret tt) ;;
            usage w 0 stdout
       else mret tt) ;;
      run_opts w n opts' port username
  end.

(** The password: [DVR_PASSWORD], or else the prompt. *)
Definition run_password (w : World) : io string :=
  match environ w !! "DVR_PASSWORD" with
  | Some password => mret password
  | None =>
      try_except (Getpass "Password: " :: [], getpass w "Password: ")
        (fun e => match e with
                  | EOFError => Some (exit EX_IOERR)
                  | _ => None
                  end)
  end.

(** The dispatch on [command] that ends [run]. *)
Definition run_command (w : World) (host command : string)
    (args : list string) (port username password : string) : io unit :=
  if String.eqb command "reboot" then
    conn ← connect w host port username password;
    call ReqReboot (dev_reboot w)
  else if String.eqb command "info" then
    conn ← connect w host port username password;
    try_finally (run_info w conn args) (call ReqLogout (dev_logout w))
  else if String.eqb command "time" then
    conn ← connect w host port username password;
    try_finally (run_time w conn args) (call ReqLogout (dev_logout w))
  else usage w EX_USAGE stderr.

Definition command_ok (w : World) (command : string) : bool :=
  forallb (fun c => isalnum w c || String.eqb c "-") (characters w command).

Definition run (w : World) (args : list string) : io unit :=
  match getopt w args with
  | None => usage w EX_USAGE stderr
  | Some (opts, args) =>
      match args with
      | host :: command :: args =>
          (if negb (command_ok w command)
           then usage w EX_USAGE stderr else mret tt) ;;
          let port := default "34567" (environ w !! "DVR_PORT") in
          let username := default "admin" (environ w !! "DVR_USERNAME") in
          '(port, username) ← run_opts w (length opts) opts port username;
          password ← run_password w;
          run_command w host command args port username password
      | _ => usage w EX_USAGE stderr      (* [len(args) < 2] *)
      end
  end.

(** ** A concrete world

    Instances of the library functions and a device with fixed replies, on
    which the front end can be run on concrete command lines.  The
    instances follow the library on the text the command lines below are
    made of. *)

(** [getopt(args, 'hp:u:')]: [-h] takes no argument, [-p] and [-u] take
    one, glued to the option or in the next word. *)
Definition short_has_arg (opt : ascii) : option bool :=
  if Ascii.eqb opt "h" then Some false
  else if Ascii.eqb opt "p" || Ascii.eqb opt "u" then Some true
  else None.

Fixpoint do_shorts (optstring : string) (args : list string)
  : option (list (string * string) * list string) :=
  match optstring with
  | EmptyString => Some ([], args)
  | String opt rest =>
      let name := String "-" (String opt EmptyString) in
      match short_has_arg opt with
      | None => None
      | Some true =>
          match rest, args with
          | EmptyString, [] => None
          | EmptyString, a :: args' => Some ([(name, a)], args')
          | _, _ => Some ([(name, rest)], args)
          end
      | Some false =>
          match do_shorts rest args with
          | Some (opts, args') => Some ((name, "") :: opts, args')
          | None => None
          end
      end
  end.

Fixpoint getopt_loop (fuel : nat) (args : list string)
  : option (list (string * string) * list string) :=
  match fuel, args with
  | S fuel', String "-" (String c body as optstring) :: rest =>
      if Ascii.eqb c "-"
      then match body with
           | EmptyString => Some ([], rest)      (* [--] ends the options *)
           | _ => None                           (* no long options *)
           end
      else match do_shorts optstring rest with
           | Some (opts, rest') =>
               match getopt_loop fuel' rest' with
               | Some (opts', args') => Some (opts ++ opts', args')
               | None => None
               end
           | None => None
           end
  | _, _ => Some ([], args)
  end.

Definition getopt_hpu (args : list string) :=
  getopt_loop (length args) args.

(** The characters of a [str] held as UTF-8: a lead byte and the
    continuation bytes it announces make one character; a byte that fits no
    such sequence is a character of its own (Python decodes it to a lone
    surrogate).  [pending] holds the bytes of the sequence so far, [need]
    the number of continuation bytes still to come. *)
Definition single (c : ascii) : string := String c EmptyString.

Definition is_continuation (c : ascii) : bool :=
  let n := nat_of_ascii c in ((128 <=? n) && (n <=? 191))%nat.

Definition utf8_length (c : ascii) : nat :=
  let n := nat_of_ascii c in
  if ((194 <=? n) && (n <=? 223))%nat then 2%nat
  else if ((224 <=? n) && (n <=? 239))%nat then 3%nat
  else if ((240 <=? n) && (n <=? 244))%nat then 4%nat
  else 1%nat.

Fixpoint utf8_go (pending : list ascii) (need : nat) (s : string)
  : list string :=
  match s with
  | EmptyString => map single pending
  | String c r =>
      let fresh :=
        match utf8_length c with
        | S (S k) => utf8_go [c] (S k) r
        | _ => single c :: utf8_go [] 0 r
        end in
      match need with
      | O => fresh
      | S k =>
          if is_continuation c
          then match k with
               | O => string_of_list_ascii (pending ++ [c]) :: utf8_go [] 0 r
               | _ => utf8_go (pending ++ [c]) k r
               end
          else map single pending ++ fresh
      end
  end.

Definition utf8_characters (s : string) : list string := utf8_go [] 0 s.

(** [c.isalnum()] of one character, for the characters up to U+017F: the
    ASCII digits and letters, the letters, digits and fractions of the
    Latin-1 Supplement, and Latin Extended-A, which is all letters.  The
    characters beyond are not looked up and count as not alphanumeric. *)
Definition latin_isalnum (c : string) : bool :=
  match c with
  | String a EmptyString =>
      let n := nat_of_ascii a in
      ((48 <=? n) && (n <=? 57) || (65 <=? n) && (n <=? 90)
       || (97 <=? n) && (n <=? 122))%nat
  | String a (String b EmptyString) =>
      let cp := ((nat_of_ascii a - 192) * 64 + (nat_of_ascii b - 128))%nat in
      ((cp =? 170) || (cp =? 178) || (cp =? 179) || (cp =? 181)
       || (cp =? 185) || (cp =? 186) || (188 <=? cp) && (cp <=? 190)
       || (192 <=? cp) && (cp <=? 214) || (216 <=? cp) && (cp <=? 246)
       || (248 <=? cp) && (cp <=? 383))%nat
  | _ => false
  end.

(** [int(s, base=0)] on ASCII text: white space around the literal, a sign,
    a prefix [0x], [0o] or [0b] for the base, single underscores between
    the digits (and after the prefix); a decimal literal that starts with a
    zero must be zero. *)
Definition is_space (c : ascii) : bool :=
  let n := nat_of_ascii c in
  ((9 <=? n) && (n <=? 13) || (28 <=? n) && (n <=? 32))%nat.

Fixpoint lstrip (s : string) : string :=
  match s with
  | String c r => if is_space c then lstrip r else s
  | EmptyString => EmptyString
  end.

Fixpoint rstrip_space (s : string) : string :=
  match s with
  | EmptyString => EmptyString
  | String c r =>
      match rstrip_space r with
      | EmptyString => if is_space c then EmptyString
                       else String c EmptyString
      | r' => String c r'
      end
  end.

Definition digit_of (c : ascii) : option Z :=
  let n := nat_of_ascii c in
  if ((48 <=? n) && (n <=? 57))%nat then Some (Z.of_nat n - 48)
  else if ((97 <=? n) && (n <=? 102))%nat then Some (Z.of_nat n - 87)
  else if ((65 <=? n) && (n <=? 70))%nat then Some (Z.of_nat n - 55)
  else None.

(** The digits of a literal in [base]; [after_digit] tells whether the
    character before was a digit, which an underscore and the end need. *)
Fixpoint int_digits (base acc : Z) (after_digit : bool) (s : string)
  : option Z :=
  match s with
  | EmptyString => if after_digit then Some acc else None
  | String c r =>
      if Ascii.eqb c "_"
      then (if after_digit then int_digits base acc false r else None)
      else match digit_of c with
           | Some d => if (d <? base)%Z
                       then int_digits base (base * acc + d)%Z true r
                       else None
           | None => None
           end
  end.

Definition int_prefixed (base : Z) (s : string) : option Z :=
  match s with
  | String "_" r => int_digits base 0 false r
  | _ => int_digits base 0 false s
  end.

Definition int_unsigned (s : string) : option Z :=
  match s with
  | String "0" (String c r) =>
      if Ascii.eqb c "x" || Ascii.eqb c "X" then int_prefixed 16 r
      else if Ascii.eqb c "o" || Ascii.eqb c "O" then int_prefixed 8 r
      else if Ascii.eqb c "b" || Ascii.eqb c "B" then int_prefixed 2 r
      else match int_digits 10 0 false s with
           | Some 0%Z => Some 0%Z
           | _ => None
           end
  | _ => int_digits 10 0 false s
  end.

Definition int_literal (s : string) : option Z :=
  match rstrip_space (lstrip s) with
  | String "-" r => Z.opp <$> int_unsigned r
  | String "+" r => int_unsigned r
  | r => int_unsigned r
  end.

(** [isoformat] of a naive datetime without microseconds. *)
Definition fmt04 (n : Z) : string :=
  let s := str_int n in
  String.concat "" (replicate (4 - String.length s) "0") +:+ s.

Definition isoformat_naive (t : datetime) : string :=
  fmt04 (year t) +:+ "-" +:+ fmt02 (month t) +:+ "-" +:+ fmt02 (day t)
  +:+ "T" +:+ fmt02 (hour t) +:+ ":" +:+ fmt02 (minute t)
  +:+ ":" +:+ fmt02 (second t).

Definition epoch : datetime := Datetime 1970 1 1 0 0 0 0 None.
Definition new_year : datetime := Datetime 2024 1 1 0 0 0 0 None.
Definition new_year_cet : datetime := Datetime 2024 1 1 0 0 0 0 (Some 60).

Definition dateparse_table (s : string) : option datetime :=
  if String.eqb s "1970-01-01" then Some epoch
  else if String.eqb s "2024-01-01 00:00:00" then Some new_year
  else if String.eqb s "2024-01-01 00:00:00+01:00" then Some new_year_cet
  else None.

(** The host names [gethostbyname] accepts: it encodes its argument with
    the [idna] codec, which on ASCII text wants every label but the last to
    hold 1 to 63 characters and the last to hold at most 63, and raises a
    [UnicodeError] otherwise.  [cur] is the length of the label so far. *)
Fixpoint labels_ok (cur : nat) (host : string) : bool :=
  match host with
  | EmptyString => (cur <? 64)%nat
  | String c r =>
      if Ascii.eqb c "."
      then (0 <? cur)%nat && (cur <? 64)%nat && labels_ok 0 r
      else labels_ok (S cur) r
  end.

Definition not_found : OSErr :=
  {| filename := None; strerror := Some "Name or service not known" |}.
Definition refused : OSErr :=
  {| filename := None; strerror := Some "Connection refused" |}.

Definition sample_info : SystemInfo :=
  {| chassis := "HVR"; board := "B1"; serial := "0001";
     hardware := "1.0"; eeprom := ""; software := "4.02"; build := "";
     videoin := 2; videoout := 1; commin := 0; commout := 0;
     triggerin := 0; triggerout := 0; audioin := 0; views := 0;
     uptime := 1505 |}.

Definition sample_part (c : bool) : Partition :=
  {| current := c; psize := 1000; free := 250;
     viewedstart := epoch; viewedend := new_year;
     unviewedstart := epoch; unviewedend := new_year |}.

(** A disk that reports three partitions and carries five records. *)
Definition disk_3_of_5 : Disk :=
  {| number := 0; parts := 3;
     partinfo := [sample_part true; sample_part false; sample_part false;
                  sample_part false; sample_part false] |}.

Definition sample_activity : ActivityInfo :=
  {| channels := [ {| bitrate := 512; recording := true |};
                   {| bitrate := 0; recording := false |};
                   {| bitrate := 64; recording := false |} ];
     triggers := {| in_ := Some 1; out := None; obscure := Some 0;
                    disconnect := None; motion := Some 3 |} |}.

Definition sample_world (env : gmap string string) (login : outcome unit)
    : World :=
  {| argv0 := "/usr/bin/dvrip";
     characters := utf8_characters;
     isalnum := latin_isalnum;
     executable := "/usr/bin/python3";
     environ := env;
     getopt := getopt_hpu;
     getpass := fun _ => Return "secret";
     int_base0 := int_literal;
     getservbyname := fun s => if String.eqb s "http" then Return 80
                               else Raise (OSError not_found);
     gethostbyname := fun s => if negb (labels_ok 0 s)
                               then Raise (OtherError "UnicodeError")
                               else if String.eqb s "nohost"
                               then Raise (OSError not_found)
                               else Return s;
     socket_new := None;
     dateparse := dateparse_table;
     isoformat := isoformat_naive;
     dev_connect := fun _ _ _ _ => login;
     dev_systeminfo := Return sample_info;
     dev_storageinfo := Return [disk_3_of_5];
     dev_activityinfo := Return sample_activity;
     dev_time := fun t => Return (default new_year t);
     dev_reboot := Return tt;
     dev_logout := Return tt;
     dateparse_epoch := ex_intro _ epoch (conj eq_refl eq_refl) |}.

(** The same world with the input closed: the password prompt meets the
    end of the input. *)
Definition sample_world_eof : World :=
  {| argv0 := "/usr/bin/dvrip";
     characters := utf8_characters;
     isalnum := latin_isalnum;
     executable := "/usr/bin/python3";
     environ := ∅;
     getopt := getopt_hpu;
     getpass := fun _ => Raise EOFError;
     int_base0 := int_literal;
     getservbyname := fun s => if String.eqb s "http" then Return 80
                               else Raise (OSError not_found);
     gethostbyname := fun s => if negb (labels_ok 0 s)
                               then Raise (OtherError "UnicodeError")
                               else if String.eqb s "nohost"
                               then Raise (OSError not_found)
                               else Return s;
     socket_new := None;
     dateparse := dateparse_table;
     isoformat := isoformat_naive;
     dev_connect := fun _ _ _ _ => Return tt;
     dev_systeminfo := Return sample_info;
     dev_storageinfo := Return [disk_3_of_5];
     dev_activityinfo := Return sample_activity;
     dev_time := fun t => Return (default new_year t);
     dev_reboot := Return tt;
     dev_logout := Return tt;
     dateparse_epoch := ex_intro _ epoch (conj eq_refl eq_refl) |}.

(** ** Reference renderings

    What the specification says the status line shows, written from its
    words, to be compared with the code above. *)

(** The trigger attributes that are present with a true value, under the
    names the status line shows them with, in the order of the record. *)
Definition shown_triggers (t : Triggers) : list (string * Z) :=
  omap (fun '(name, value) =>
          match value with
          | Some n => if truthy_int n then Some (name, n) else None
          | None => None
          end)
       [("in", in_ t); ("out", out t); ("obscure", obscure t);
        ("disconnect", disconnect t); ("motion", motion t)].

Definition show_trigger (nv : string * Z) : string :=
  fst nv +:+ " " +:+ str_int (snd nv).

(** The value an option takes: the argument of the last [flag] among
    [opts], or [dflt] when [flag] is not given. *)
Definition option_value (flag : string) (opts : list (string * string))
    (dflt : string) : string :=
  default dflt
    (last (omap (fun '(opt, arg) =>
                   if String.eqb opt flag then Some arg else None) opts)).

(** [port] names the service number [serv]: as a number, or else as a
    service name that is found. *)
Definition resolves_port (w : World) (port : string) (serv : Z) : Prop :=
  int_base0 w port = Some serv
  \/ (int_base0 w port = None /\ getservbyname w port = Return serv).

(** [run_time] leaving with the usage message. *)
Definition time_usage_exit (w : World) : io unit :=
  ([Print stdout ("Usage: " +:+ prog w +:+ " ... time [TIME]")],
   Raise (SystemExit EX_USAGE)).

(** [run_time] issuing the request [req] and printing, in ISO format, the
    time the device returns. *)
Definition time_printed (w : World) (req : request) (reply : outcome datetime)
  : io unit :=
  match reply with
  | Return t => ([Call req; Print stdout (isoformat w t)], Return tt)
  | Raise e => ([Call req], Raise e)
  end.

(** ** Observations on traces *)

(** The requests issued to the device, in order. *)
Definition calls (t : list event) : list request :=
  omap (fun ev => match ev with Call r => Some r | _ => None end) t.

(** The password prompts shown, in order. *)
Definition prompts (t : list event) : list string :=
  omap (fun ev => match ev with Getpass p => Some p | _ => None end) t.

(** Every line printed in [t] goes to [file]. *)
Definition prints_on (file : stream) (t : list event) : Prop :=
  forall file' text, In (Print file' text) t -> file' = file.

(** The password prompt does not appear in [t]. *)
Definition no_prompt (t : list event) : Prop :=
  forall prompt, ~ In (Getpass prompt) t.

(** [True] when [name] holds no slash. *)
Fixpoint no_slash (name : string) : bool :=
  match name with
  | EmptyString => true
  | String c r => negb (Ascii.eqb c "/") && no_slash r
  end.

(** The text of the general usage message, and [usage()] with its default
    arguments: the message on [stderr], then [EX_USAGE]. *)
Definition usage_text (w : World) : string :=
  "Usage: " +:+ prog w +:+ " [-p PORT] [-u USERNAME] HOST COMMAND ...".

Definition usage_exit (w : World) : io unit :=
  ([Print stderr (usage_text w)], Raise (SystemExit EX_USAGE)).

(** How [connect] ends when a lookup raises [e]: an [OSError] goes through
    [ioerr] with [EX_NOHOST], anything else is not caught. *)
Definition lookup_failure (e : exn) : io DVRIPClient :=
  match e with
  | OSError e' =>
      ([Print stderr (ioerr_message e')], Raise (SystemExit EX_NOHOST))
  | _ => ([], Raise e)
  end.

(** How [connect] ends once the login request [r] has been issued, by the
    way the call to [conn.connect] ended. *)
Definition login_outcome (r : request) (reply : outcome unit)
  : io DVRIPClient :=
  match reply with
  | Return _ => ([Call r], Return Client)
  | Raise (DVRIPDecodeError text) =>
      ([Call r; Print stderr text], Raise (SystemExit EX_PROTOCOL))
  | Raise (DVRIPRequestError text) =>
      ([Call r; Print stderr text], Raise (SystemExit 2))
  | Raise (OSError e) =>
      ([Call r; Print stderr (ioerr_message e)], Raise (SystemExit EX_IOERR))
  | Raise e => ([Call r], Raise e)
  end.

(** An exception that the [except OSError] around a lookup does not catch. *)
Definition uncaught_by_lookup (e : exn) : bool :=
  match e with
  | OSError _ => false
  | _ => true
  end.

(** An exception that no [except] clause of [connect] catches. *)
Definition uncaught_by_connect (e : exn) : bool :=
  match e with
  | DVRIPDecodeError _ | DVRIPRequestError _ | OSError _ => false
  | _ => true
  end.

(** * Properties *)

(** ** The front end on concrete command lines *)

Example getopt_glued_and_separate :
  getopt_hpu ["-p"; "8000"; "-uroot"; "cam"; "info"; "-h"]
  = Some ([("-p", "8000"); ("-u", "root")], ["cam"; "info"; "-h"]).
Proof. reflexivity. Qed.

Example getopt_unknown_option : getopt_hpu ["-x"; "cam"; "info"] = None.
Proof. reflexivity. Qed.

Example run_info_sample :
  run (sample_world ∅ (Return tt)) ["-p"; "8000"; "-uroot"; "cam"; "info"]
  = ([Getpass "Password: "; Call (ReqConnect "cam" 8000 "root" "secret");
      Call ReqSystemInfo;
      Print stdout "HVR B1 0001 hardware 1.0 software 4.02 videoin 2 videoout 1";
      Call ReqStorageInfo;
      Print stdout "disk 0";
      Print stdout ("  part 0 current size 1000M free 250M"
                    +:+ " viewedstart 1970-01-01T00:00:00"
                    +:+ " viewedend 2024-01-01T00:00:00"
                    +:+ " unviewedstart 1970-01-01T00:00:00"
                    +:+ " unviewedend 2024-01-01T00:00:00");
      Print stdout ("  part 1 size 1000M free 250M"
                    +:+ " viewedstart 1970-01-01T00:00:00"
                    +:+ " viewedend 2024-01-01T00:00:00"
                    +:+ " unviewedstart 1970-01-01T00:00:00"
                    +:+ " unviewedend 2024-01-01T00:00:00");
      Print stdout ("  part 2 size 1000M free 250M"
                    +:+ " viewedstart 1970-01-01T00:00:00"
                    +:+ " viewedend 2024-01-01T00:00:00"
                    +:+ " unviewedstart 1970-01-01T00:00:00"
                    +:+ " unviewedend 2024-01-01T00:00:00");
      Call ReqActivityInfo;
      Print stdout "channel 0 bitrate 512K/s recording";
      Print stdout "channel 1 bitrate 0K/s";
      Call ReqGetTime;
      Print stdout "2024-01-01T00:00:00 up P1dT01h05m triggers in 1 motion 3";
      Call ReqLogout],
     Return tt).
Proof. vm_compute. reflexivity. Qed.

Example run_help_alone :
  run (sample_world ∅ (Return tt)) ["-h"; "cam"; "info"]
  = ([Print stdout "Usage: dvrip [-p PORT] [-u USERNAME] HOST COMMAND ..."],
     Raise (SystemExit 0)).
Proof. vm_compute. reflexivity. Qed.

Example run_help_with_port :
  run (sample_world ∅ (Return tt)) ["-p"; "1"; "-h"; "cam"; "info"]
  = ([Print stderr "Usage: dvrip [-p PORT] [-u USERNAME] HOST COMMAND ..."],
     Raise (SystemExit 64)).
Proof. vm_compute. reflexivity. Qed.

Example run_reboot_sample :
  run (sample_world {["DVR_PASSWORD" := "pw"]} (Return tt)) ["cam"; "reboot"]
  = ([Call (ReqConnect "cam" 34567 "admin" "pw"); Call ReqReboot], Return tt).
Proof. vm_compute. reflexivity. Qed.

Example run_rejected_login :
  run (sample_world ∅ (Raise (DVRIPRequestError "wrong password")))
      ["cam"; "time"]
  = ([Getpass "Password: "; Call (ReqConnect "cam" 34567 "admin" "secret");
      Print stderr "wrong password"],
     Raise (SystemExit 2)).
Proof. vm_compute. reflexivity. Qed.

Example run_accented_command :
  run (sample_world ∅ (Return tt)) ["cam"; "café"]
  = ([Getpass "Password: ";
      Print stderr "Usage: dvrip [-p PORT] [-u USERNAME] HOST COMMAND ..."],
     Raise (SystemExit 64)).
Proof. vm_compute. reflexivity. Qed.

Example run_command_with_space :
  run (sample_world ∅ (Return tt)) ["cam"; "in fo"]
  = ([Print stderr "Usage: dvrip [-p PORT] [-u USERNAME] HOST COMMAND ..."],
     Raise (SystemExit 64)).
Proof. vm_compute. reflexivity. Qed.

Example run_host_with_empty_label :
  run (sample_world ∅ (Return tt)) ["a..b"; "time"]
  = ([Getpass "Password: "], Raise (OtherError "UnicodeError")).
Proof. vm_compute. reflexivity. Qed.

Example int_literal_samples :
  map int_literal ["34567"; "080"; "0x50"; " 80 "; "8_0"; "+80"; "00";
                   "0_8"; "80_"; "0x"; "http"]
  = [Some 34567; None; Some 80; Some 80; Some 80; Some 80; Some 0;
     None; None; None; None].
Proof. vm_compute. reflexivity. Qed.

Example uptime_field_samples :
  map uptime_field [0; 59; 60; 1439; 1440; 100000]
  = ["up PT0h00m"; "up PT0h59m"; "up PT1h00m"; "up PT23h59m";
     "up P1dT00h00m"; "up P69dT10h40m"].
Proof. vm_compute. reflexivity. Qed.

(** ** The monad *)

(** Runs the binds that have become redexes, and nothing else. *)
Ltac io_step :=
  cbn [mbind io_bind bind mret io_ret ret raise exit print call try_except
       try_finally app trace result fst snd].

Lemma trace_bind {A B} (m : io A) (f : A -> io B) :
  trace (m ≫= f) =
  match result m with
  | Return a => trace m ++ trace (f a)
  | Raise _ => trace m
  end.
Proof. destruct m as [t [a|e]]; simpl; [destruct (f a)|]; reflexivity. Qed.

Lemma trace_try_finally {A} (m : io A) (fin : io unit) :
  trace (try_finally m fin) = trace m ++ trace fin.
Proof. destruct m as [t r], fin as [t' r']; reflexivity. Qed.

Lemma result_try_finally {A} (m : io A) (fin : io unit) :
  result (try_finally m fin) =
  match result fin with
  | Raise e => Raise e
  | Return _ => result m
  end.
Proof. destruct m as [t r], fin as [t' r']; reflexivity. Qed.

Lemma print_lines_eq (ls : list string) :
  print_lines ls = (map (Print stdout) ls, Return tt).
Proof.
  induction ls as [|l ls IH]; [reflexivity|].
  change (print_lines (l :: ls)) with (print stdout l ;; print_lines ls).
  rewrite IH. reflexivity.
Qed.

(** ** Loops bounded by a count: [zip(range(n), items)] *)

Lemma length_range (n : Z) : length (range n) = Z.to_nat n.
Proof. unfold range. rewrite length_map, length_seq. reflexivity. Qed.

Lemma zip_seq_take {A B} (f : Z -> A -> B) (n s : nat) (l : list A) :
  zip_with f (map Z.of_nat (seq s n)) l =
  imap (fun i x => f (Z.of_nat (s + i)) x) (take n l).
Proof.
  revert s l. induction n as [|n IH]; intros s l; [reflexivity|].
  destruct l as [|x l]; [reflexivity|]. simpl.
  rewrite Nat.add_0_r, IH. f_equal.
  apply imap_ext. intros i y _. simpl. do 2 f_equal. lia.
Qed.

Lemma zip_range_take {A B} (f : Z * A -> B) (n : Z) (l : list A) :
  map f (zip (range n) l) =
  imap (fun i x => f (Z.of_nat i, x)) (take (Z.to_nat n) l).
Proof.
  unfold range.
  transitivity (zip_with (fun i x => f (i, x))
                  (map Z.of_nat (seq 0 (Z.to_nat n))) l).
  - generalize (map Z.of_nat (seq 0 (Z.to_nat n))). intros ks.
    revert l. induction ks as [|k ks IH]; intros [|x l]; simpl;
      try reflexivity.
    rewrite IH. reflexivity.
  - apply zip_seq_take.
Qed.

(** The partition lines of a disk are those of its first [parts] records,
    numbered from zero. *)
Lemma partition_lines_take (w : World) (d : Disk) :
  partition_lines w d =
  imap (fun i part => partition_line w (Z.of_nat i) part)
       (take (Z.to_nat (parts d)) (partinfo d)).
Proof. unfold partition_lines. apply zip_range_take. Qed.

Lemma length_partition_lines (w : World) (d : Disk) :
  length (partition_lines w d) =
  Nat.min (Z.to_nat (parts d)) (length (partinfo d)).
Proof. rewrite partition_lines_take, length_imap, length_take. reflexivity. Qed.

Lemma channel_lines_take (info : SystemInfo) (actv : ActivityInfo) :
  channel_lines info actv =
  imap (fun i chan => channel_line (Z.of_nat i) chan)
       (take (Z.to_nat (videoin info)) (channels actv)).
Proof. unfold channel_lines. apply zip_range_take. Qed.

Lemma length_channel_lines (info : SystemInfo) (actv : ActivityInfo) :
  length (channel_lines info actv) =
  Nat.min (Z.to_nat (videoin info)) (length (channels actv)).
Proof. rewrite channel_lines_take, length_imap, length_take. reflexivity. Qed.

(** X7. What [run_info] does when it is given no argument and every request
    is answered: it issues the four requests and prints, all on [stdout],
    the system line, the lines of each disk, the channel lines and the
    status line, in this order, and returns. *)
Lemma run_info_answered (w : World) (conn : DVRIPClient)
    (info : SystemInfo) (disks : list Disk) (actv : ActivityInfo)
    (time : datetime) :
  dev_systeminfo w = Return info ->
  dev_storageinfo w = Return disks ->
  dev_activityinfo w = Return actv ->
  dev_time w None = Return time ->
  run_info w conn [] =
  ([Call ReqSystemInfo; Print stdout (system_line info); Call ReqStorageInfo]
   ++ map (Print stdout) (flat_map (disk_lines w) disks)
   ++ [Call ReqActivityInfo]
   ++ map (Print stdout) (channel_lines info actv)
   ++ [Call ReqGetTime; Print stdout (status_line w info actv time)],
   Return tt).
Proof.
  intros Hs Hd Ha Ht. unfold run_info, call.
  rewrite Hs. io_step.
  rewrite Hd. io_step.
  rewrite print_lines_eq. io_step.
  rewrite Ha. io_step.
  rewrite print_lines_eq. io_step.
  rewrite Ht. io_step.
  reflexivity.
Qed.

(** The whole of [run_info] without arguments, by the replies of the
    device: each request is issued only when the ones before it returned. *)
Lemma run_info_no_argument (w : World) (conn : DVRIPClient) :
  run_info w conn [] =
  match dev_systeminfo w with
  | Raise e => ([Call ReqSystemInfo], Raise e)
  | Return info =>
      let t1 := [Call ReqSystemInfo; Print stdout (system_line info);
                 Call ReqStorageInfo] in
      match dev_storageinfo w with
      | Raise e => (t1, Raise e)
      | Return disks =>
          let t2 := t1 ++ map (Print stdout) (flat_map (disk_lines w) disks)
                    ++ [Call ReqActivityInfo] in
          match dev_activityinfo w with
          | Raise e => (t2, Raise e)
          | Return actv =>
              let t3 := t2 ++ map (Print stdout) (channel_lines info actv)
                        ++ [Call ReqGetTime] in
              match dev_time w None with
              | Raise e => (t3, Raise e)
              | Return time =>
                  (t3 ++ [Print stdout (status_line w info actv time)],
                   Return tt)
              end
          end
      end
  end.
Proof.
  unfold run_info, call.
  destruct (dev_systeminfo w) as [info|e]; [|reflexivity]. io_step.
  destruct (dev_storageinfo w) as [disks|e]; [|reflexivity]. io_step.
  rewrite print_lines_eq. io_step.
  destruct (dev_activityinfo w) as [actv|e]; io_step; [|reflexivity].
  rewrite print_lines_eq. io_step.
  destruct (dev_time w None) as [time|e]; io_step;
    rewrite <- ?app_assoc; reflexivity.
Qed.

Lemma map_imap {A B C} (g : B -> C) (f : nat -> A -> B) (l : list A) :
  map g (imap f l) = imap (fun i x => g (f i x)) l.
Proof.
  revert f. induction l as [|x l IH]; intros f; [reflexivity|].
  cbn [imap map]. f_equal. apply IH.
Qed.

Lemma disk_lines_prints (w : World) (disks : list Disk) :
  map (Print stdout) (flat_map (disk_lines w) disks) =
  flat_map (fun d =>
              Print stdout ("disk " +:+ str_int (number d))
              :: imap (fun i part =>
                         Print stdout (partition_line w (Z.of_nat i) part))
                      (take (Z.to_nat (parts d)) (partinfo d))) disks.
Proof.
  induction disks as [|d disks IH]; [reflexivity|].
  cbn [flat_map]. rewrite map_app, IH. f_equal.
  unfold disk_lines. cbn [map]. f_equal.
  rewrite partition_lines_take. apply map_imap.
Qed.

(** ** [run_info]: the partition and channel loops *)

(** C1. The partition records printed for a disk are bounded by the disk's
    own partition count.  Once the storage reply is decoded, [run_info]
    prints for every disk its header line and then one line for each of the
    first [parts] records of [partinfo], numbered from zero, and nothing
    else before the activity request: the number of partition lines of a
    disk is the smaller of [parts] and the number of records, so never more
    than [parts], and for a disk that reports 3 partitions and carries 5
    records exactly the first 3 are rendered. *)
Theorem partitions_bounded_by_count (w : World) (conn : DVRIPClient)
    (info : SystemInfo) (disks : list Disk) :
  dev_systeminfo w = Return info ->
  dev_storageinfo w = Return disks ->
  let rendered (d : Disk) : list event :=
    imap (fun i part => Print stdout (partition_line w (Z.of_nat i) part))
         (take (Z.to_nat (parts d)) (partinfo d)) in
  (exists rest,
     trace (run_info w conn []) =
     [Call ReqSystemInfo; Print stdout (system_line info);
      Call ReqStorageInfo]
     ++ flat_map (fun d => Print stdout ("disk " +:+ str_int (number d))
                           :: rendered d) disks
     ++ Call ReqActivityInfo :: rest)
  /\ (forall d,
        length (rendered d) =
        Nat.min (Z.to_nat (parts d)) (length (partinfo d)))
  /\ (forall d, (length (rendered d) <= Z.to_nat (parts d))%nat)
  /\ (forall d p0 p1 p2 p3 p4,
        parts d = 3 -> partinfo d = [p0; p1; p2; p3; p4] ->
        rendered d = [Print stdout (partition_line w 0 p0);
                      Print stdout (partition_line w 1 p1);
                      Print stdout (partition_line w 2 p2)])
  /\ (forall i part,
        exists fields,
          partition_line w i part = ("  part " +:+ str_int i) +:+ " " +:+ fields).
Proof.
  intros Hinfo Hdisks rendered.
  assert (forall d, length (rendered d) =
                    Nat.min (Z.to_nat (parts d)) (length (partinfo d)))
    as Hlen.
  { intros d. unfold rendered. rewrite length_imap, length_take.
    reflexivity. }
  split; [|split; [exact Hlen|split; [|split]]].
  - rewrite run_info_no_argument, Hinfo, Hdisks. cbv zeta.
    rewrite disk_lines_prints. fold rendered.
    destruct (dev_activityinfo w) as [actv|e];
      [destruct (dev_time w None) as [time|e]|];
      cbn [trace fst]; rewrite <- ?app_assoc; eexists; reflexivity.
  - intros d. rewrite Hlen. lia.
  - intros d p0 p1 p2 p3 p4 Hparts Hrecords. unfold rendered.
    rewrite Hparts, Hrecords. reflexivity.
  - intros i part. unfold partition_line, join.
    destruct (current part); eexists; reflexivity.
Qed.

Lemma partitions_bounded_by_count_witness :
  exists rest,
    trace (run_info (sample_world ∅ (Return tt)) Client []) =
    [Call ReqSystemInfo;
     Print stdout "HVR B1 0001 hardware 1.0 software 4.02 videoin 2 videoout 1";
     Call ReqStorageInfo]
    ++ [Print stdout "disk 0";
        Print stdout (partition_line (sample_world ∅ (Return tt)) 0
                        (sample_part true));
        Print stdout (partition_line (sample_world ∅ (Return tt)) 1
                        (sample_part false));
        Print stdout (partition_line (sample_world ∅ (Return tt)) 2
                        (sample_part false))]
    ++ Call ReqActivityInfo :: rest.
Proof.
  exact (proj1 (partitions_bounded_by_count (sample_world ∅ (Return tt))
                  Client sample_info [disk_3_of_5] eq_refl eq_refl)).
Defined.


(** ** [run_info]: the status line *)

Lemma fmt02_two_digits (n : Z) :
  0 <= n < 100 -> String.length (fmt02 n) = 2%nat.
Proof.
  intros Hn. rewrite <- (Z2Nat.id n) by lia.
  assert (Z.to_nat n < 100)%nat as Hlt by lia.
  revert Hlt. generalize (Z.to_nat n). clear. intros k Hk.
  do 100 (destruct k as [|k]; [vm_compute; reflexivity|]). lia.
Qed.

(** C9. For a non-negative uptime in minutes the [up] field is computed by
    exact integer division: minutes = uptime mod 60, hours = (uptime div 60)
    mod 24, days = uptime div 1440; it reads [P{days}dT{hours:02}h{minutes:02}m]
    when days > 0 and [PT{hours}h{minutes:02}m] when days = 0. *)
Theorem uptime_field_spec (up : Z) :
  0 <= up ->
  let minutes := up mod 60 in
  let hours := (up / 60) mod 24 in
  let days := up / 1440 in
  (0 < days ->
   uptime_field up = "up P" +:+ str_int days +:+ "dT" +:+ fmt02 hours
                     +:+ "h" +:+ fmt02 minutes +:+ "m")
  /\ (days = 0 ->
      uptime_field up = "up PT" +:+ str_int hours +:+ "h" +:+ fmt02 minutes
                        +:+ "m").
Proof.
  intros Hup minutes hours days.
  assert (up / 60 / 24 = days) as Hdays.
  { unfold days. rewrite Z.div_div by lia. reflexivity. }
  unfold uptime_field, divmod. rewrite Hdays. fold minutes hours.
  unfold truthy_int. split; intros Hd.
  - destruct (Z.eqb_spec days 0) as [E|_]; [lia|]. reflexivity.
  - rewrite Hd. reflexivity.
Qed.

Lemma uptime_field_spec_witness : uptime_field 1505 = "up P1dT01h05m".
Proof.
  exact (proj1 (uptime_field_spec 1505 ltac:(lia)) ltac:(reflexivity)).
Defined.

Lemma trigger_field_shown (attr name : string) (value : option Z) :
  rstrip "_" attr = name ->
  trigger_field attr value =
  map show_trigger
      (omap (fun '(name, value) =>
               match value with
               | Some n => if truthy_int n then Some (name, n) else None
               | None => None
               end) [(name, value)]).
Proof.
  intros <-. unfold trigger_field.
  destruct value as [n|]; [|reflexivity].
  simpl. destruct (truthy_int n); reflexivity.
Qed.

Lemma trigger_fields_shown (t : Triggers) :
  trigger_fields t = map show_trigger (shown_triggers t).
Proof.
  unfold trigger_fields, shown_triggers.
  rewrite (trigger_field_shown "in_" "in"), (trigger_field_shown "out" "out"),
    (trigger_field_shown "obscure" "obscure"),
    (trigger_field_shown "disconnect" "disconnect"),
    (trigger_field_shown "motion" "motion") by reflexivity.
  rewrite <- !map_app, <- !omap_app. reflexivity.
Qed.

(** C6. Each of the five trigger attributes is optional.  The status line
    that [run_info] prints last lists, after the word [triggers], exactly
    the attributes whose value is present and true, in the order [in],
    [out], [obscure], [disconnect], [motion], each as its name (the trailing
    underscore of [in_] stripped) followed by its value; when all five are
    absent or false it shows the single word [none] instead. *)
Theorem status_line_triggers (w : World) (conn : DVRIPClient)
    (info : SystemInfo) (disks : list Disk) (actv : ActivityInfo)
    (time : datetime) :
  let t := triggers actv in
  let head := [isoformat w time; uptime_field (uptime info); "triggers"] in
  let field (name : string) (value : option Z) : list string :=
    match value with
    | Some n => if (n =? 0)%Z then [] else [name +:+ " " +:+ str_int n]
    | None => []
    end in
  let listed := field "in" (in_ t) ++ field "out" (out t)
                ++ field "obscure" (obscure t)
                ++ field "disconnect" (disconnect t)
                ++ field "motion" (motion t) in
  let line := String.concat " " (head ++ match listed with
                                         | [] => ["none"]
                                         | _ => listed
                                         end) in
  status_line w info actv time = line
  /\ (dev_systeminfo w = Return info -> dev_storageinfo w = Return disks ->
      dev_activityinfo w = Return actv -> dev_time w None = Return time ->
      last (trace (run_info w conn [])) = Some (Print stdout line))
  /\ listed = map show_trigger (shown_triggers t)
  /\ trigger_fields t = map show_trigger (shown_triggers t)
  /\ status_fields w info actv time =
     head ++ match shown_triggers t with
             | [] => ["none"]
             | shown => map show_trigger shown
             end
  /\ (truthy (in_ t) = false -> truthy (out t) = false ->
      truthy (obscure t) = false -> truthy (disconnect t) = false ->
      truthy (motion t) = false ->
      status_line w info actv time =
      isoformat w time +:+ " " +:+ uptime_field (uptime info)
      +:+ " triggers none").
Proof.
  intros t head field listed line.
  assert (trigger_fields t = listed) as Hlisted.
  { unfold trigger_fields, trigger_field, listed, field, truthy_int.
    destruct (in_ t) as [a|], (out t) as [b|], (obscure t) as [c|],
      (disconnect t) as [d|], (motion t) as [e|];
      repeat match goal with |- context [(?n =? 0)%Z] =>
               destruct (n =? 0)%Z end;
      reflexivity. }
  assert (status_fields w info actv time =
          head ++ match listed with [] => ["none"] | _ => listed end)
    as Hfields.
  { unfold status_fields. fold t. rewrite Hlisted. fold head.
    destruct listed as [|f0 fs]; reflexivity. }
  assert (status_line w info actv time = line) as Hline.
  { unfold status_line, join. rewrite Hfields. reflexivity. }
  assert (listed = map show_trigger (shown_triggers t)) as Hshown.
  { rewrite <- Hlisted. apply trigger_fields_shown. }
  split; [exact Hline|]. split.
  { intros Hi Hd Ha Ht.
    rewrite run_info_no_argument, Hi, Hd, Ha, Ht. cbv zeta.
    cbn [trace fst]. rewrite last_snoc, Hline. reflexivity. }
  split; [exact Hshown|]. split; [apply trigger_fields_shown|]. split.
  { rewrite Hfields, Hshown.
    destruct (shown_triggers t) as [|nv shown]; reflexivity. }
  intros Hi Ho Hb Hd Hm. rewrite Hline. unfold line.
  assert (listed = []) as ->; [|reflexivity].
  unfold listed, field, truthy, truthy_int in *.
  destruct (in_ t) as [a|], (out t) as [b|], (obscure t) as [c|],
    (disconnect t) as [d|], (motion t) as [e|];
    repeat match goal with H : negb (?n =? 0)%Z = false |- _ =>
             apply negb_false_iff in H; rewrite H end;
    reflexivity.
Qed.

Lemma status_line_triggers_witness :
  last (trace (run_info (sample_world ∅ (Return tt)) Client []))
  = Some (Print stdout
            "2024-01-01T00:00:00 up P1dT01h05m triggers in 1 motion 3").
Proof.
  exact (proj1 (proj2 (status_line_triggers (sample_world ∅ (Return tt))
                         Client sample_info [disk_3_of_5] sample_activity
                         new_year))
           eq_refl eq_refl eq_refl eq_refl).
Defined.

(** ** [connect] *)

Lemma connect_resolved (w : World) (host port user password addr : string)
    (serv : Z) :
  resolves_port w port serv ->
  gethostbyname w host = Return addr ->
  socket_new w = None ->
  connect w host port user password =
  (try_except
     (call (ReqConnect addr serv user password)
           (dev_connect w addr serv user password))
     (fun e =>
        match e with
        | DVRIPDecodeError text => Some (print stderr text ;; exit EX_PROTOCOL)
        | DVRIPRequestError text => Some (print stderr text ;; exit 2)
        | OSError e => Some (ioerr e EX_IOERR)
        | _ => None
        end) ;;
   mret Client).
Proof.
  intros Hport Hhost Hsock. unfold connect.
  assert (match int_base0 w port with
          | Some n => mret n
          | None => match getservbyname w port with
                    | Return n => mret n
                    | Raise (OSError e) => ioerr e EX_NOHOST
                    | Raise e => raise e
                    end
          end = (mret serv : io Z)) as ->.
  { destruct Hport as [-> | [-> ->]]; reflexivity. }
  rewrite Hhost, Hsock. io_step.
  match goal with |- _ = ?m => destruct m as [t r] end. reflexivity.
Qed.

(** C3. A malformed login reply (decode error) and a rejected login
    (request error) both end the process, with different statuses: the
    decode error with [EX_PROTOCOL], which is 76, the request error with 2. *)
Theorem login_failures_exit_distinctly (w : World)
    (host port user password addr text : string) (serv : Z) :
  resolves_port w port serv ->
  gethostbyname w host = Return addr ->
  socket_new w = None ->
  (dev_connect w addr serv user password = Raise (DVRIPDecodeError text) ->
   connect w host port user password =
   ([Call (ReqConnect addr serv user password); Print stderr text],
    Raise (SystemExit EX_PROTOCOL)))
  /\ (dev_connect w addr serv user password = Raise (DVRIPRequestError text) ->
      connect w host port user password =
      ([Call (ReqConnect addr serv user password); Print stderr text],
       Raise (SystemExit 2)))
  /\ EX_PROTOCOL = 76
  /\ EX_PROTOCOL <> 2.
Proof.
  intros Hport Hhost Hsock.
  rewrite (connect_resolved w host port user password addr serv) by assumption.
  repeat split; try (intros ->; reflexivity). discriminate.
Qed.

Lemma login_failures_exit_distinctly_witness :
  connect (sample_world ∅ (Raise (DVRIPDecodeError "bad marker")))
    "cam" "34567" "admin" "secret"
  = ([Call (ReqConnect "cam" 34567 "admin" "secret");
      Print stderr "bad marker"],
     Raise (SystemExit 76)).
Proof.
  exact (proj1 (login_failures_exit_distinctly
                  (sample_world ∅ (Raise (DVRIPDecodeError "bad marker")))
                  "cam" "34567" "admin" "secret" "cam" "bad marker" 34567
                  (or_introl eq_refl) eq_refl eq_refl)
           eq_refl).
Defined.

Lemma connect_service_raises (w : World)
    (host port user password : string) (e : exn) :
  int_base0 w port = None -> getservbyname w port = Raise e ->
  connect w host port user password = lookup_failure e.
Proof.
  intros Hint Hserv. unfold connect. rewrite Hint, Hserv.
  destruct e; reflexivity.
Qed.

Lemma connect_host_raises (w : World)
    (host port user password : string) (serv : Z) (e : exn) :
  resolves_port w port serv -> gethostbyname w host = Raise e ->
  connect w host port user password = lookup_failure e.
Proof.
  intros Hport Hhost. unfold connect.
  destruct Hport as [-> | [-> ->]]; rewrite Hhost; destruct e; reflexivity.
Qed.

Lemma connect_service_not_found (w : World)
    (host port user password : string) (e : OSErr) :
  int_base0 w port = None -> getservbyname w port = Raise (OSError e) ->
  connect w host port user password =
  ([Print stderr (ioerr_message e)], Raise (SystemExit EX_NOHOST)).
Proof. apply connect_service_raises. Qed.

Lemma connect_host_not_found (w : World)
    (host port user password : string) (serv : Z) (e : OSErr) :
  resolves_port w port serv -> gethostbyname w host = Raise (OSError e) ->
  connect w host port user password =
  ([Print stderr (ioerr_message e)], Raise (SystemExit EX_NOHOST)).
Proof. apply connect_host_raises. Qed.

Lemma connect_no_socket (w : World)
    (host port user password addr : string) (serv : Z) (e : OSErr) :
  resolves_port w port serv -> gethostbyname w host = Return addr ->
  socket_new w = Some e ->
  connect w host port user password = ([], Raise (OSError e)).
Proof.
  intros Hport Hhost Hsock. unfold connect.
  destruct Hport as [-> | [-> ->]]; rewrite Hhost, Hsock; reflexivity.
Qed.

(** [connect] returns a client only when the login call returned. *)
Lemma connect_returns (w : World) (host port user password : string)
    (t : list event) (conn : DVRIPClient) :
  connect w host port user password = (t, Return conn) ->
  exists serv addr,
    resolves_port w port serv /\ gethostbyname w host = Return addr
    /\ socket_new w = None
    /\ dev_connect w addr serv user password = Return tt.
Proof.
  intros Hc.
  assert (exists serv, resolves_port w port serv) as [serv Hport].
  { unfold resolves_port.
    destruct (int_base0 w port) as [serv|] eqn:Hint; [eauto|].
    destruct (getservbyname w port) as [serv|e] eqn:Hserv; [eauto|].
    rewrite (connect_service_raises w host port user password e) in Hc
      by assumption.
    destruct e; discriminate. }
  destruct (gethostbyname w host) as [addr|e] eqn:Hhost; cycle 1.
  { rewrite (connect_host_raises w host port user password serv e) in Hc
      by assumption.
    destruct e; discriminate. }
  destruct (socket_new w) as [e|] eqn:Hsock.
  { rewrite (connect_no_socket w host port user password addr serv e) in Hc
      by assumption.
    discriminate. }
  exists serv, addr. repeat split; try assumption.
  rewrite (connect_resolved w host port user password addr serv) in Hc
    by assumption.
  destruct (dev_connect w addr serv user password) as [[]|e]; [reflexivity|].
  destruct e; discriminate.
Qed.

(** C8. [connect] fails on every socket- or DNS-level failure and returns
    no client then: when the service name or the host name is not found the
    process ends with [EX_NOHOST] (68), when the connection attempt fails
    with an [OSError] it ends with [EX_IOERR] (74); a client is returned
    only when both lookups, the socket and the login went through. *)
Theorem connect_failures (w : World) (host port user password : string) :
  (forall e,
     int_base0 w port = None -> getservbyname w port = Raise (OSError e) ->
     connect w host port user password =
     ([Print stderr (ioerr_message e)], Raise (SystemExit EX_NOHOST)))
  /\ (forall serv e,
       resolves_port w port serv -> gethostbyname w host = Raise (OSError e) ->
       connect w host port user password =
       ([Print stderr (ioerr_message e)], Raise (SystemExit EX_NOHOST)))
  /\ (forall serv addr e,
       resolves_port w port serv -> gethostbyname w host = Return addr ->
       socket_new w = None ->
       dev_connect w addr serv user password = Raise (OSError e) ->
       connect w host port user password =
       ([Call (ReqConnect addr serv user password);
         Print stderr (ioerr_message e)],
        Raise (SystemExit EX_IOERR)))
  /\ (forall t conn,
       connect w host port user password = (t, Return conn) ->
       exists serv addr,
         resolves_port w port serv /\ gethostbyname w host = Return addr
         /\ socket_new w = None
         /\ dev_connect w addr serv user password = Return tt)
  /\ EX_NOHOST = 68 /\ EX_IOERR = 74.
Proof.
  split; [|split; [|split; [|split; [|split; reflexivity]]]].
  - apply connect_service_not_found.
  - apply connect_host_not_found.
  - intros serv addr e Hport Hhost Hsock Hdev.
    rewrite (connect_resolved w host port user password addr serv)
      by assumption.
    rewrite Hdev. reflexivity.
  - apply connect_returns.
Qed.

Lemma connect_failures_witness :
  connect (sample_world ∅ (Return tt)) "nohost" "34567" "admin" "secret"
  = ([Print stderr "Name or service not known"], Raise (SystemExit 68)).
Proof.
  exact (proj1 (proj2 (connect_failures (sample_world ∅ (Return tt))
                         "nohost" "34567" "admin" "secret"))
           34567 not_found (or_introl eq_refl) eq_refl).
Defined.

(** ** [run]: options and teardown *)

Lemma option_value_cons (flag opt arg : string)
    (opts : list (string * string)) (dflt : string) :
  option_value flag ((opt, arg) :: opts) dflt =
  option_value flag opts (if String.eqb opt flag then arg else dflt).
Proof.
  unfold option_value. simpl.
  destruct (String.eqb opt flag); [|reflexivity].
  rewrite last_cons. destruct (last _); reflexivity.
Qed.

(** Without [-h] the loop over the options leaves in [port] and [username]
    the argument of the last [-p] and of the last [-u], if any. *)
Lemma run_opts_no_help (w : World) (n : nat) (opts : list (string * string))
    (port username : string) :
  forallb (fun oa => negb (String.eqb (fst oa) "-h")) opts = true ->
  run_opts w n opts port username =
  mret (option_value "-p" opts port, option_value "-u" opts username).
Proof.
  revert port username.
  induction opts as [|[opt arg] opts IH]; intros port username Hh.
  - reflexivity.
  - simpl in Hh. apply andb_true_iff in Hh as [Hopt Hh].
    apply negb_true_iff in Hopt.
    rewrite !option_value_cons. cbn [run_opts]. rewrite Hopt, IH by exact Hh.
    reflexivity.
Qed.

(** C7. The defaults of the port and of the user name come from the
    environment: the port is [DVR_PORT], or 34567 when that is not set, the
    user name is [DVR_USERNAME], or admin when that is not set; the options
    [-p] and [-u] override them.  With these values [run] goes on to the
    password and to the command. *)
Theorem port_and_user_defaults (w : World) (args : list string)
    (opts : list (string * string)) (host command : string)
    (rest : list string) :
  getopt w args = Some (opts, host :: command :: rest) ->
  command_ok w command = true ->
  forallb (fun oa => negb (String.eqb (fst oa) "-h")) opts = true ->
  run w args =
  (password ← run_password w;
   run_command w host command rest
     (option_value "-p" opts (default "34567" (environ w !! "DVR_PORT")))
     (option_value "-u" opts (default "admin" (environ w !! "DVR_USERNAME")))
     password).
Proof.
  intros Hgetopt Hcommand Hhelp. unfold run.
  rewrite Hgetopt, Hcommand, run_opts_no_help by exact Hhelp.
  cbn [negb]. io_step.
  destruct (run_password w ≫= _) as [t r]. reflexivity.
Qed.

Lemma port_and_user_defaults_witness :
  run (sample_world (<["DVR_PORT" := "8000"]> ∅) (Return tt))
      ["-u"; "root"; "cam"; "time"]
  = ([Getpass "Password: "; Call (ReqConnect "cam" 8000 "root" "secret");
      Call ReqGetTime; Print stdout "2024-01-01T00:00:00"; Call ReqLogout],
     Return tt).
Proof.
  exact (port_and_user_defaults
           (sample_world (<["DVR_PORT" := "8000"]> ∅) (Return tt))
           ["-u"; "root"; "cam"; "time"] [("-u", "root")] "cam" "time" []
           eq_refl eq_refl eq_refl).
Defined.

(** C4. For the commands [info] and [time], once [connect] has returned a
    client, [logout] is called on every way out of the handler, whether it
    returns, exits or raises: the events of [run] are those of [connect],
    those of the handler, and then the logout call.  What leaves [run] is
    what left the handler, unless [logout] itself raises. *)
Theorem logout_on_every_exit_path (w : World) (host command : string)
    (args : list string) (port username password : string)
    (t : list event) (conn : DVRIPClient) :
  command = "info" \/ command = "time" ->
  connect w host port username password = (t, Return conn) ->
  let handler := if String.eqb command "info"
                 then run_info w conn args else run_time w conn args in
  let r := run_command w host command args port username password in
  trace r = t ++ trace handler ++ [Call ReqLogout]
  /\ result r = match dev_logout w with
                | Raise e => Raise e
                | Return _ => result handler
                end.
Proof.
  intros Hcommand Hconnect handler r. subst handler r. unfold run_command.
  destruct Hcommand as [-> | ->];
    cbn [String.eqb Ascii.eqb Bool.eqb andb]; rewrite Hconnect;
    cbn [mbind io_bind bind].
  - pose proof (trace_try_finally (run_info w conn args)
                  (call ReqLogout (dev_logout w))) as Ht.
    pose proof (result_try_finally (run_info w conn args)
                  (call ReqLogout (dev_logout w))) as Hr.
    destruct (try_finally _ _) as [t' r']. cbn [trace result fst snd] in *.
    subst. split; reflexivity.
  - pose proof (trace_try_finally (run_time w conn args)
                  (call ReqLogout (dev_logout w))) as Ht.
    pose proof (result_try_finally (run_time w conn args)
                  (call ReqLogout (dev_logout w))) as Hr.
    destruct (try_finally _ _) as [t' r']. cbn [trace result fst snd] in *.
    subst. split; reflexivity.
Qed.

Lemma logout_on_every_exit_path_witness :
  trace (run_command (sample_world ∅ (Return tt)) "cam" "time"
           ["never"] "34567" "admin" "secret")
  = [Call (ReqConnect "cam" 34567 "admin" "secret");
     Print stdout "Usage: dvrip ... time [TIME]"; Call ReqLogout].
Proof.
  exact (proj1 (logout_on_every_exit_path (sample_world ∅ (Return tt))
                  "cam" "time" ["never"] "34567" "admin" "secret"
                  [Call (ReqConnect "cam" 34567 "admin" "secret")] Client
                  (or_intror eq_refl) eq_refl)).
Defined.

(** ** [run_time] *)

(** [run_time] on a first argument and at most one more. *)
Lemma run_time_first (w : World) (conn : DVRIPClient) (a : string)
    (rest : list string) :
  (length rest <= 1)%nat ->
  run_time w conn (a :: rest) =
  match dateparse w a with
  | None => time_usage_exit w
  | Some t =>
      match tzinfo t with
      | Some _ => time_usage_exit w
      | None => time_printed w (ReqSetTime t) (dev_time w (Some t))
      end
  end.
Proof.
  intros Hrest. unfold run_time.
  destruct (dateparse w a) as [t|]; [|reflexivity].
  replace (2 <? length (a :: rest))%nat with false
    by (symmetry; apply Nat.ltb_ge; simpl; lia).
  destruct (tzinfo t) as [tz|] eqn:Htz.
  - rewrite bool_decide_eq_true_2 by discriminate. reflexivity.
  - rewrite bool_decide_eq_false_2 by (intros H; apply H; reflexivity).
    cbn [orb]. unfold time_printed, call.
    destruct (dev_time w (Some t)); reflexivity.
Qed.

Lemma run_time_no_argument (w : World) (conn : DVRIPClient) :
  run_time w conn [] = time_printed w ReqGetTime (dev_time w None).
Proof.
  unfold run_time. destruct (dateparse_epoch w) as (t & -> & Htz).
  rewrite bool_decide_eq_false_2 by (rewrite Htz; intros H; apply H; reflexivity).
  cbn [length Nat.ltb Nat.leb orb]. unfold time_printed, call.
  destruct (dev_time w None); reflexivity.
Qed.

Lemma run_time_many_arguments (w : World) (conn : DVRIPClient)
    (a b c : string) (rest : list string) :
  run_time w conn (a :: b :: c :: rest) = time_usage_exit w.
Proof. unfold run_time. destruct (dateparse w a); reflexivity. Qed.

(** C5, as the code has it.  [run_time] exits with [EX_USAGE] whenever the
    time argument fails to parse or parses as timezone-aware.  Otherwise,
    provided at most two arguments are given, it issues set-time with the
    parsed naive value when an argument is given and get-time when none is
    given, and in both cases prints the returned time in ISO format. *)
Theorem run_time_spec (w : World) (conn : DVRIPClient) (args : list string) :
  (forall a rest,
     args = a :: rest ->
     dateparse w a = None
     \/ (exists t tz, dateparse w a = Some t /\ tzinfo t = Some tz) ->
     run_time w conn args = time_usage_exit w)
  /\ (forall a rest t,
       args = a :: rest -> (length args <= 2)%nat ->
       dateparse w a = Some t -> tzinfo t = None ->
       run_time w conn args =
       time_printed w (ReqSetTime t) (dev_time w (Some t)))
  /\ (args = [] ->
      run_time w conn args = time_printed w ReqGetTime (dev_time w None)).
Proof.
  split; [|split].
  - intros a rest -> Hbad.
    destruct rest as [|b [|c rest]];
      [| |apply run_time_many_arguments].
    all: rewrite run_time_first by (simpl; lia).
    all: destruct Hbad as [-> | (t & tz & -> & ->)]; reflexivity.
  - intros a rest t -> Hlen Hparse Htz.
    rewrite run_time_first by (simpl in Hlen; lia).
    rewrite Hparse, Htz. reflexivity.
  - intros ->. apply run_time_no_argument.
Qed.

Lemma run_time_spec_witness :
  run_time (sample_world ∅ (Return tt)) Client ["2024-01-01 00:00:00"; "x"]
  = ([Call (ReqSetTime new_year); Print stdout "2024-01-01T00:00:00"],
     Return tt).
Proof.
  exact (proj1 (proj2 (run_time_spec (sample_world ∅ (Return tt)) Client
                         ["2024-01-01 00:00:00"; "x"]))
           "2024-01-01 00:00:00" ["x"] new_year eq_refl
           (le_n 2) eq_refl eq_refl).
Defined.

(** C5, as stated, fails with three arguments: the first one parses as a
    naive time, yet no set-time is issued; [run_time] prints its usage
    message and exits with [EX_USAGE]. *)
Lemma run_time_three_arguments_counterexample :
  dateparse (sample_world ∅ (Return tt)) "2024-01-01 00:00:00" = Some new_year
  /\ tzinfo new_year = None
  /\ run_time (sample_world ∅ (Return tt)) Client
       ["2024-01-01 00:00:00"; "x"; "y"]
     = ([Print stdout "Usage: dvrip ... time [TIME]"], Raise (SystemExit 64))
  /\ run_time (sample_world ∅ (Return tt)) Client
       ["2024-01-01 00:00:00"; "x"; "y"]
     <> time_printed (sample_world ∅ (Return tt)) (ReqSetTime new_year)
          (dev_time (sample_world ∅ (Return tt)) (Some new_year)).
Proof. repeat split; try reflexivity. discriminate. Qed.

(** C10. [run_time] uses only its first argument.  Without arguments it
    performs a get-time and never a set-time; with one or two arguments it
    parses the first, and a second one changes nothing; with three or more
    it exits with [EX_USAGE]. *)
Theorem run_time_arguments (w : World) (conn : DVRIPClient) :
  run_time w conn [] = time_printed w ReqGetTime (dev_time w None)
  /\ (forall t, Call (ReqSetTime t) ∉ trace (run_time w conn []))
  /\ (forall a,
        run_time w conn [a] =
        match dateparse w a with
        | None => time_usage_exit w
        | Some t =>
            match tzinfo t with
            | Some _ => time_usage_exit w
            | None => time_printed w (ReqSetTime t) (dev_time w (Some t))
            end
        end)
  /\ (forall a b, run_time w conn [a; b] = run_time w conn [a])
  /\ (forall a b c rest,
        run_time w conn (a :: b :: c :: rest) = time_usage_exit w).
Proof.
  split; [|split; [|split; [|split]]].
  - apply run_time_no_argument.
  - intros t. rewrite run_time_no_argument. unfold time_printed.
    destruct (dev_time w None); cbn [trace fst]; intros Hin;
      repeat (apply elem_of_cons in Hin as [Hin|Hin]; [discriminate|]);
      apply elem_of_nil in Hin; exact Hin.
  - intros a. apply run_time_first. simpl. lia.
  - intros a b. rewrite !run_time_first by (simpl; lia). reflexivity.
  - apply run_time_many_arguments.
Qed.

(** * Further properties of the front end *)

(** ** [prog] *)

Lemma append_cons_assoc (s : string) (c : ascii) (r : string) :
  (s +:+ String c EmptyString) +:+ r = s +:+ String c r.
Proof.
  induction s as [|a s IH]; [reflexivity|].
  change (String a ((s +:+ String c EmptyString) +:+ r)
          = String a (s +:+ String c r)).
  rewrite IH. reflexivity.
Qed.

Lemma basename_from_no_slash (cur name : string) :
  no_slash name = true -> basename_from cur name = cur +:+ name.
Proof.
  revert cur. induction name as [|c r IH]; intros cur Hname; simpl.
  - induction cur as [|a cur IHc]; [reflexivity|].
    change (String a cur = String a (cur +:+ EmptyString)).
    rewrite <- IHc. reflexivity.
  - simpl in Hname. apply andb_true_iff in Hname as [Hc Hr].
    apply negb_true_iff in Hc. rewrite Hc, IH by exact Hr.
    apply append_cons_assoc.
Qed.

Lemma basename_from_dir (cur dir name : string) :
  no_slash name = true ->
  basename_from cur (dir +:+ "/" +:+ name) = name.
Proof.
  intros Hname. revert cur. induction dir as [|c dir IH]; intros cur; simpl.
  - apply (basename_from_no_slash EmptyString name Hname).
  - destruct (Ascii.eqb c "/"); apply IH.
Qed.

(** X1. [prog] looks only at what follows the last slash of [argv[0]]: when
    that is [__main__.py] or [-c] the program is shown as the interpreter
    followed by [-m dvrip], otherwise as that name, whatever directory the
    script was started from. *)
Theorem prog_ignores_directory (w : World) (dir name : string) :
  argv0 w = name \/ argv0 w = dir +:+ "/" +:+ name ->
  no_slash name = true ->
  prog w = if String.eqb name "__main__.py" || String.eqb name "-c"
           then executable w +:+ " -m dvrip" else name.
Proof.
  intros Hargv Hname. unfold prog.
  assert (basename (argv0 w) = name) as ->; [|reflexivity].
  unfold basename. destruct Hargv as [-> | ->].
  - apply (basename_from_no_slash EmptyString name Hname).
  - apply basename_from_dir, Hname.
Qed.

Lemma prog_ignores_directory_witness :
  prog (sample_world ∅ (Return tt)) = "dvrip".
Proof.
  exact (prog_ignores_directory (sample_world ∅ (Return tt)) "/usr/bin"
           "dvrip" (or_intror eq_refl) eq_refl).
Defined.

(** ** [connect]: every way it can end *)

Lemma connect_login (w : World) (host port user password addr : string)
    (serv : Z) :
  resolves_port w port serv ->
  gethostbyname w host = Return addr ->
  socket_new w = None ->
  connect w host port user password =
  login_outcome (ReqConnect addr serv user password)
                (dev_connect w addr serv user password).
Proof.
  intros Hport Hhost Hsock.
  rewrite (connect_resolved w host port user password addr serv)
    by assumption.
  destruct (dev_connect w addr serv user password) as [[]|e];
    [reflexivity|].
  destruct e; reflexivity.
Qed.

Lemma connect_cases (w : World) (host port user password : string) :
  (exists e, (getservbyname w port = Raise e \/ gethostbyname w host = Raise e)
             /\ connect w host port user password = lookup_failure e)
  \/ (exists e, socket_new w = Some e
                /\ connect w host port user password = ([], Raise (OSError e)))
  \/ (exists addr serv,
        connect w host port user password =
        login_outcome (ReqConnect addr serv user password)
                      (dev_connect w addr serv user password)).
Proof.
  assert ((exists e, int_base0 w port = None /\ getservbyname w port = Raise e)
          \/ exists serv, resolves_port w port serv) as [(e & Hi & Hs)|[serv Hp]].
  { unfold resolves_port. destruct (int_base0 w port) as [serv|]; [eauto|].
    destruct (getservbyname w port) as [serv|e]; eauto. }
  { left. exists e. split; [left; exact Hs|].
    apply connect_service_raises; assumption. }
  destruct (gethostbyname w host) as [addr|e] eqn:Hhost; cycle 1.
  { left. exists e. split; [right; reflexivity|].
    eapply connect_host_raises; eassumption. }
  destruct (socket_new w) as [e|] eqn:Hsock.
  { right; left. exists e. split; [reflexivity|].
    eapply connect_no_socket; eassumption. }
  right; right. exists addr, serv. apply connect_login; assumption.
Qed.

(** X2. However [connect] ends, it returns the client, or ends the process
    with one of the statuses 2, 68, 74 and 76, or lets through an exception
    it does not catch: what a lookup raised other than an [OSError], the
    [OSError] of the socket creation, or what the login call raised other
    than a decode error, a request error and an [OSError].  So a decode
    error or a request error of the login call never leaves [connect]. *)
Theorem connect_outcomes (w : World) (host port user password : string) :
  match result (connect w host port user password) with
  | Return _ => True
  | Raise e =>
      (exists code, e = SystemExit code /\ In code [2; 68; 74; 76])
      \/ (uncaught_by_lookup e = true
          /\ (getservbyname w port = Raise e \/ gethostbyname w host = Raise e))
      \/ (exists e', e = OSError e' /\ socket_new w = Some e')
      \/ (uncaught_by_connect e = true
          /\ exists addr serv,
               dev_connect w addr serv user password = Raise e)
  end.
Proof.
  destruct (connect_cases w host port user password)
    as [(e & Hlookup & ->) | [(e & Hsock & ->) | (addr & serv & ->)]].
  - destruct e; simpl; try (right; left; split; [reflexivity|exact Hlookup]).
    left. eexists. split; [reflexivity|]. simpl. auto.
  - simpl. right; right; left. eauto.
  - destruct (dev_connect w addr serv user password) as [[]|e] eqn:Hdev;
      [exact I|].
    destruct e; simpl;
      try (left; eexists; split; [reflexivity|]; simpl; tauto);
      right; right; right; split; eauto.
Qed.

(** X3. When the port and the host resolve, the socket is created and the
    login call returns, [connect] has issued exactly the login request, to
    the resolved address and service number and with the user name and the
    password it was given, has printed nothing, and returns the client. *)
Theorem connect_success (w : World) (host port user password addr : string)
    (serv : Z) :
  resolves_port w port serv ->
  gethostbyname w host = Return addr ->
  socket_new w = None ->
  dev_connect w addr serv user password = Return tt ->
  connect w host port user password =
  ([Call (ReqConnect addr serv user password)], Return Client).
Proof.
  intros Hport Hhost Hsock Hdev.
  rewrite (connect_login w host port user password addr serv) by assumption.
  rewrite Hdev. reflexivity.
Qed.

Lemma connect_success_witness :
  connect (sample_world ∅ (Return tt)) "cam" "http" "admin" "secret"
  = ([Call (ReqConnect "cam" 80 "admin" "secret")], Return Client).
Proof.
  exact (connect_success (sample_world ∅ (Return tt)) "cam" "http" "admin"
           "secret" "cam" 80 (or_intror (conj eq_refl eq_refl))
           eq_refl eq_refl eq_refl).
Defined.

(** X4. [connect] turns into an exit status only the three kinds of
    exception it names.  Any other exception of the login call leaves
    [connect] as it is, after the request and with nothing printed; and the
    [OSError] of a socket that cannot be created, which is raised outside
    the [try], leaves it before any request. *)
Theorem connect_lets_through (w : World)
    (host port user password addr : string) (serv : Z) :
  resolves_port w port serv ->
  gethostbyname w host = Return addr ->
  (forall e, socket_new w = None ->
             dev_connect w addr serv user password = Raise e ->
             uncaught_by_connect e = true ->
             connect w host port user password =
             ([Call (ReqConnect addr serv user password)], Raise e))
  /\ (forall e, socket_new w = Some e ->
                connect w host port user password = ([], Raise (OSError e))).
Proof.
  intros Hport Hhost. split.
  - intros e Hsock Hdev He.
    rewrite (connect_login w host port user password addr serv) by assumption.
    rewrite Hdev. destruct e; try discriminate He; reflexivity.
  - intros e Hsock. eapply connect_no_socket; eassumption.
Qed.

Lemma connect_lets_through_witness :
  connect (sample_world ∅ (Raise EOFError)) "cam" "34567" "admin" "secret"
  = ([Call (ReqConnect "cam" 34567 "admin" "secret")], Raise EOFError).
Proof.
  exact (proj1 (connect_lets_through (sample_world ∅ (Raise EOFError))
                  "cam" "34567" "admin" "secret" "cam" 34567
                  (or_introl eq_refl) eq_refl)
           EOFError eq_refl eq_refl eq_refl).
Defined.

(** X5. [connect] reports on [stderr] only, never asks for the password,
    and issues at most one request to the device, the login. *)
Theorem connect_is_quiet (w : World) (host port user password : string) :
  prints_on stderr (trace (connect w host port user password))
  /\ no_prompt (trace (connect w host port user password))
  /\ (calls (trace (connect w host port user password)) = []
      \/ exists addr serv,
           calls (trace (connect w host port user password))
           = [ReqConnect addr serv user password]).
Proof.
  unfold prints_on, no_prompt.
  destruct (connect_cases w host port user password)
    as [(e & _ & ->) | [(e & _ & ->) | (addr & serv & ->)]].
  - repeat split; [| |left; destruct e; reflexivity]; destruct e; simpl;
      try tauto.
    + intros f s [H|[]]. inversion H. reflexivity.
    + intros p [H|[]]. discriminate H.
  - repeat split; [| |left; reflexivity]; simpl; tauto.
  - assert (forall r reply f s,
              In (Print f s) (trace (login_outcome r reply)) -> f = stderr)
      as Hprint.
    { intros r [[]|e] f s; [|destruct e]; simpl;
        intros H; repeat (destruct H as [H|H]; [inversion H; reflexivity|]);
        destruct H. }
    assert (forall r reply p,
              ~ In (Getpass p) (trace (login_outcome r reply))) as Hprompt.
    { intros r [[]|e] p; [|destruct e]; simpl;
        intros H; repeat (destruct H as [H|H]; [discriminate H|]);
        destruct H. }
    repeat split; [apply Hprint|apply Hprompt|].
    right. exists addr, serv.
    destruct (dev_connect w addr serv user password) as [[]|e];
      [|destruct e]; reflexivity.
Qed.

(** ** [run_info]: arguments, requests and lines *)

(** X6. [run_info] takes no argument.  Given any, it sends nothing to the
    device: with [-h] alone it prints its usage line on [stdout] and exits
    with status 0, with anything else it prints it on [stderr] and exits
    with [EX_USAGE]. *)
Theorem run_info_usage (w : World) (conn : DVRIPClient) (args : list string) :
  args <> [] ->
  run_info w conn args =
  if bool_decide (args = ["-h"])
  then ([Print stdout ("Usage: " +:+ prog w +:+ " ... info")],
        Raise (SystemExit 0))
  else ([Print stderr ("Usage: " +:+ prog w +:+ " ... info")],
        Raise (SystemExit EX_USAGE)).
Proof.
  intros Hargs. destruct args as [|a args]; [contradiction|].
  unfold run_info. destruct (bool_decide (a :: args = ["-h"])); reflexivity.
Qed.

Lemma run_info_usage_witness :
  run_info (sample_world ∅ (Return tt)) Client ["-h"; "-h"]
  = ([Print stderr "Usage: dvrip ... info"], Raise (SystemExit 64)).
Proof.
  exact (run_info_usage (sample_world ∅ (Return tt)) Client ["-h"; "-h"]
           ltac:(discriminate)).
Defined.

Lemma calls_app (t t' : list event) : calls (t ++ t') = calls t ++ calls t'.
Proof. apply omap_app. Qed.

Lemma calls_prints (file : stream) (ls : list string) :
  calls (map (Print file) ls) = [].
Proof. induction ls as [|l ls IH]; [reflexivity|exact IH]. Qed.

Lemma prints_on_app (file : stream) (t t' : list event) :
  prints_on file t -> prints_on file t' -> prints_on file (t ++ t').
Proof.
  intros Ht Ht' f s Hin. apply in_app_or in Hin as [Hin|Hin]; eauto.
Qed.

Lemma prints_on_prints (file : stream) (ls : list string) :
  prints_on file (map (Print file) ls).
Proof.
  intros f s Hin. apply in_map_iff in Hin as (l & Heq & _).
  inversion Heq. reflexivity.
Qed.

Lemma prints_on_call (file : stream) (r : request) : prints_on file [Call r].
Proof. intros f s [H|[]]. discriminate H. Qed.

Lemma run_info_answered_witness :
  result (run_info (sample_world ∅ (Return tt)) Client []) = Return tt.
Proof.
  exact (f_equal snd
           (run_info_answered (sample_world ∅ (Return tt)) Client sample_info
              [disk_3_of_5] sample_activity new_year
              eq_refl eq_refl eq_refl eq_refl)).
Defined.

(** X9. The partition lines of a disk are those of its first [parts]
    records, in order and numbered from zero: line [i] exists exactly when
    [i] is below both the count and the number of records.  A disk that
    reports more partitions than it carries records gets one line for each
    record it carries, and that is no error. *)
Theorem partition_lines_lookup (w : World) (d : Disk) (i : nat) :
  partition_lines w d !! i =
  (if decide (i < Z.to_nat (parts d))%nat
   then partition_line w (Z.of_nat i) <$> partinfo d !! i
   else None)
  /\ (Z.of_nat (length (partinfo d)) <= parts d ->
      length (partition_lines w d) = length (partinfo d)).
Proof.
  split.
  - rewrite partition_lines_take, list_lookup_imap.
    destruct (decide (i < Z.to_nat (parts d))%nat) as [Hlt|Hge].
    + rewrite lookup_take_lt by exact Hlt. reflexivity.
    + rewrite lookup_take_ge by lia. reflexivity.
  - intros Hparts. rewrite length_partition_lines. lia.
Qed.

Lemma partition_lines_lookup_witness :
  length (partition_lines (sample_world ∅ (Return tt))
            {| number := 1; parts := 4; partinfo := [sample_part true] |})
  = 1%nat.
Proof.
  exact (proj2 (partition_lines_lookup (sample_world ∅ (Return tt))
                  {| number := 1; parts := 4;
                     partinfo := [sample_part true] |} 0)
           ltac:(discriminate)).
Defined.

(** X10. The channel lines are those of the first [videoin] channel records,
    in order and numbered from zero; when the activity reply holds fewer
    records than [videoin], every record gets its line. *)
Theorem channel_lines_lookup (info : SystemInfo) (actv : ActivityInfo)
    (i : nat) :
  channel_lines info actv !! i =
  (if decide (i < Z.to_nat (videoin info))%nat
   then channel_line (Z.of_nat i) <$> channels actv !! i
   else None)
  /\ (Z.of_nat (length (channels actv)) <= videoin info ->
      length (channel_lines info actv) = length (channels actv)).
Proof.
  split.
  - rewrite channel_lines_take, list_lookup_imap.
    destruct (decide (i < Z.to_nat (videoin info))%nat) as [Hlt|Hge].
    + rewrite lookup_take_lt by exact Hlt. reflexivity.
    + rewrite lookup_take_ge by lia. reflexivity.
  - intros Hvideoin. rewrite length_channel_lines. lia.
Qed.

Lemma channel_lines_lookup_witness :
  length (channel_lines sample_info
            {| channels := [ {| bitrate := 1; recording := false |} ];
               triggers := Build_Triggers None None None None None |})
  = 1%nat.
Proof.
  exact (proj2 (channel_lines_lookup sample_info
                  {| channels := [ {| bitrate := 1; recording := false |} ];
                     triggers := Build_Triggers None None None None None |}
                  0)
           ltac:(discriminate)).
Defined.

(** X11. For every integer uptime, negative ones included, the days, hours
    and minutes of the [up] field add up to the uptime again, the hours are
    within 0..23 and the minutes within 0..59, the minutes always take two
    characters, and the form without days is used exactly for an uptime of
    less than a day. *)
Theorem uptime_field_parts (up : Z) :
  let minutes := up mod 60 in
  let hours := (up / 60) mod 24 in
  let days := up / 1440 in
  up = days * 1440 + hours * 60 + minutes
  /\ 0 <= hours < 24 /\ 0 <= minutes < 60
  /\ String.length (fmt02 minutes) = 2%nat
  /\ uptime_field up =
     (if (days =? 0)%Z
      then "up PT" +:+ str_int hours +:+ "h" +:+ fmt02 minutes +:+ "m"
      else "up P" +:+ str_int days +:+ "dT" +:+ fmt02 hours
           +:+ "h" +:+ fmt02 minutes +:+ "m")
  /\ (days = 0 <-> 0 <= up < 1440).
Proof.
  intros minutes hours days.
  assert (up / 60 / 24 = days) as Hdays.
  { unfold days. rewrite Z.div_div by lia. reflexivity. }
  pose proof (Z.div_mod up 60 ltac:(lia)) as H60.
  pose proof (Z.div_mod (up / 60) 24 ltac:(lia)) as H24.
  pose proof (Z.mod_pos_bound up 60 ltac:(lia)) as Hm.
  pose proof (Z.mod_pos_bound (up / 60) 24 ltac:(lia)) as Hh.
  fold minutes in H60, Hm. fold hours in H24, Hh. rewrite Hdays in H24.
  split; [lia|]. split; [lia|]. split; [lia|].
  split; [apply fmt02_two_digits; lia|].
  split; [|lia].
  unfold uptime_field, divmod. rewrite Hdays. fold minutes hours.
  unfold truthy_int. destruct (days =? 0)%Z; reflexivity.
Qed.

(** ** [run]: the command line *)

Lemma usage_default (w : World) :
  @usage unit w EX_USAGE stderr = usage_exit w.
Proof. reflexivity. Qed.

(** X12. Errors in the command line are reported before anything else
    happens: when [getopt] rejects the options, when fewer than two words
    are left for the host and the command (so also for [-h] on its own), or
    when the command holds a character that is neither alphanumeric nor a
    dash, [run] prints the usage message on [stderr] and exits with
    [EX_USAGE], without asking for the password or contacting the device. *)
Theorem run_argument_errors (w : World) (args : list string) :
  (getopt w args = None -> run w args = usage_exit w)
  /\ (forall opts rest,
        getopt w args = Some (opts, rest) -> (length rest < 2)%nat ->
        run w args = usage_exit w)
  /\ (forall opts host command rest,
        getopt w args = Some (opts, host :: command :: rest) ->
        command_ok w command = false ->
        run w args = usage_exit w).
Proof.
  unfold run. split; [|split].
  - intros ->. reflexivity.
  - intros opts rest -> Hlen.
    destruct rest as [|host [|command rest]]; [reflexivity|reflexivity|].
    simpl in Hlen. lia.
  - intros opts host command rest -> ->. reflexivity.
Qed.

Lemma run_argument_errors_witness :
  run (sample_world ∅ (Return tt)) ["-h"]
  = ([Print stderr "Usage: dvrip [-p PORT] [-u USERNAME] HOST COMMAND ..."],
     Raise (SystemExit 64)).
Proof.
  exact (proj1 (proj2 (run_argument_errors (sample_world ∅ (Return tt))
                         ["-h"]))
           [("-h", "")] [] eq_refl (le_n_S 0 1 (le_S 0 0 (le_n 0)))).
Defined.

Lemma run_opts_help (w : World) (n : nat) (opts : list (string * string))
    (port username : string) :
  existsb (fun oa => String.eqb (fst oa) "-h") opts = true ->
  run_opts w n opts port username =
  if (n =? 1)%nat
  then ([Print stdout (usage_text w)], Raise (SystemExit 0))
  else ([Print stderr (usage_text w)], Raise (SystemExit EX_USAGE)).
Proof.
  revert port username.
  induction opts as [|[opt arg] opts IH]; intros port username Hh;
    [discriminate Hh|].
  simpl in Hh. cbn [run_opts].
  destruct (String.eqb opt "-h") eqn:Hopt.
  - destruct (n =? 1)%nat; reflexivity.
  - simpl in Hh. rewrite IH by exact Hh. destruct (n =? 1)%nat; reflexivity.
Qed.

(** X13. When [-h] is among the options of a command line that names a host
    and a well-formed command, [run] only prints the usage message: on
    [stdout] with status 0 when [-h] is the one and only option, on [stderr]
    with [EX_USAGE] when it comes with any other option.  The password is
    not asked for and the device is not contacted. *)
Theorem run_help (w : World) (args : list string)
    (opts : list (string * string)) (host command : string)
    (rest : list string) :
  getopt w args = Some (opts, host :: command :: rest) ->
  command_ok w command = true ->
  existsb (fun oa => String.eqb (fst oa) "-h") opts = true ->
  run w args =
  if (length opts =? 1)%nat
  then ([Print stdout (usage_text w)], Raise (SystemExit 0))
  else ([Print stderr (usage_text w)], Raise (SystemExit EX_USAGE)).
Proof.
  intros Hgetopt Hcommand Hhelp. unfold run.
  rewrite Hgetopt, Hcommand, run_opts_help by exact Hhelp.
  destruct (length opts =? 1)%nat; reflexivity.
Qed.

Lemma run_help_witness :
  run (sample_world ∅ (Return tt)) ["-u"; "root"; "-h"; "cam"; "info"]
  = ([Print stderr "Usage: dvrip [-p PORT] [-u USERNAME] HOST COMMAND ..."],
     Raise (SystemExit 64)).
Proof.
  exact (run_help (sample_world ∅ (Return tt))
           ["-u"; "root"; "-h"; "cam"; "info"] [("-u", "root"); ("-h", "")]
           "cam" "info" [] eq_refl eq_refl eq_refl).
Defined.

(** [run] up to the dispatch on the command, when no option is [-h]. *)
Lemma run_to_command (w : World) (args : list string)
    (opts : list (string * string)) (host command : string)
    (rest : list string) :
  getopt w args = Some (opts, host :: command :: rest) ->
  command_ok w command = true ->
  forallb (fun oa => negb (String.eqb (fst oa) "-h")) opts = true ->
  run w args =
  (password ← run_password w;
   run_command w host command rest
     (option_value "-p" opts (default "34567" (environ w !! "DVR_PORT")))
     (option_value "-u" opts (default "admin" (environ w !! "DVR_USERNAME")))
     password).
Proof.
  intros Hgetopt Hcommand Hhelp. unfold run.
  rewrite Hgetopt, Hcommand, run_opts_no_help by exact Hhelp.
  cbn [negb]. io_step.
  destruct (run_password w ≫= _) as [t r]. reflexivity.
Qed.

(** X14. A well-formed command other than [reboot], [info] and [time] is
    refused only after the password has been obtained: [run] first takes
    the password, from [DVR_PASSWORD] or at the prompt, and then prints the
    usage message on [stderr] and exits with [EX_USAGE]; it never contacts
    the device. *)
Theorem run_unknown_command (w : World) (args : list string)
    (opts : list (string * string)) (host command : string)
    (rest : list string) :
  getopt w args = Some (opts, host :: command :: rest) ->
  command_ok w command = true ->
  forallb (fun oa => negb (String.eqb (fst oa) "-h")) opts = true ->
  String.eqb command "reboot" = false ->
  String.eqb command "info" = false ->
  String.eqb command "time" = false ->
  run w args =
  match run_password w with
  | (t, Return _) =>
      (t ++ [Print stderr (usage_text w)], Raise (SystemExit EX_USAGE))
  | (t, Raise e) => (t, Raise e)
  end.
Proof.
  intros Hgetopt Hcommand Hhelp Hreboot Hinfo Htime.
  rewrite (run_to_command w args opts host command rest) by assumption.
  unfold run_command. rewrite Hreboot, Hinfo, Htime.
  destruct (run_password w) as [t [password|e]]; reflexivity.
Qed.

Lemma run_unknown_command_witness :
  run (sample_world ∅ (Return tt)) ["cam"; "status"]
  = ([Getpass "Password: ";
      Print stderr "Usage: dvrip [-p PORT] [-u USERNAME] HOST COMMAND ..."],
     Raise (SystemExit 64)).
Proof.
  exact (run_unknown_command (sample_world ∅ (Return tt)) ["cam"; "status"]
           [] "cam" "status" [] eq_refl eq_refl eq_refl eq_refl eq_refl
           eq_refl).
Defined.

(** X15. When [DVR_PASSWORD] is not set and the password prompt meets the
    end of the input, [run] exits with [EX_IOERR] right after the prompt,
    whatever the command: nothing is printed and the device is not
    contacted. *)
Theorem run_password_eof (w : World) (args : list string)
    (opts : list (string * string)) (host command : string)
    (rest : list string) :
  getopt w args = Some (opts, host :: command :: rest) ->
  command_ok w command = true ->
  forallb (fun oa => negb (String.eqb (fst oa) "-h")) opts = true ->
  environ w !! "DVR_PASSWORD" = None ->
  getpass w "Password: " = Raise EOFError ->
  run w args = ([Getpass "Password: "], Raise (SystemExit EX_IOERR)).
Proof.
  intros Hgetopt Hcommand Hhelp Henv Hgetpass.
  rewrite (run_to_command w args opts host command rest) by assumption.
  unfold run_password. rewrite Henv, Hgetpass. reflexivity.
Qed.

Lemma run_password_eof_witness :
  run sample_world_eof ["cam"; "reboot"]
  = ([Getpass "Password: "], Raise (SystemExit 74)).
Proof.
  exact (run_password_eof sample_world_eof ["cam"; "reboot"] [] "cam"
           "reboot" [] eq_refl eq_refl eq_refl eq_refl eq_refl).
Defined.

Lemma option_value_snoc (flag opt arg : string)
    (opts : list (string * string)) (dflt : string) :
  option_value flag (opts ++ [(opt, arg)]) dflt =
  if String.eqb opt flag then arg else option_value flag opts dflt.
Proof.
  unfold option_value. rewrite omap_app. simpl.
  destruct (String.eqb opt flag).
  - rewrite last_snoc. reflexivity.
  - rewrite app_nil_r. reflexivity.
Qed.

(** X16. An option given several times counts once, with its last
    argument: after any options without [-h], a final [-p] decides the port
    and leaves the user name alone, and a final [-u] decides the user name
    and leaves the port alone. *)
Theorem last_option_wins (w : World) (n : nat) (opts : list (string * string))
    (port username arg : string) :
  forallb (fun oa => negb (String.eqb (fst oa) "-h")) opts = true ->
  run_opts w n (opts ++ [("-p", arg)]) port username
  = mret (arg, option_value "-u" opts username)
  /\ run_opts w n (opts ++ [("-u", arg)]) port username
     = mret (option_value "-p" opts port, arg).
Proof.
  intros Hhelp. split.
  all: rewrite run_opts_no_help
    by (rewrite forallb_app, Hhelp; reflexivity).
  all: rewrite !option_value_snoc; reflexivity.
Qed.

Lemma last_option_wins_witness :
  run_opts (sample_world ∅ (Return tt)) 3
    ([("-p", "1"); ("-u", "root")] ++ [("-p", "2")]) "34567" "admin"
  = mret ("2", "root").
Proof.
  exact (proj1 (last_option_wins (sample_world ∅ (Return tt)) 3
                  [("-p", "1"); ("-u", "root")] "34567" "admin" "2"
                  eq_refl)).
Defined.

(** ** [run]: the commands *)

(** X17. The [reboot] command never logs out.  Once [connect] has returned
    a client, [run] issues the reboot request and ends the way that call
    ends; the arguments after the command are not looked at. *)
Theorem reboot_without_logout (w : World) (host : string)
    (args : list string) (port username password : string) :
  (forall t conn,
     connect w host port username password = (t, Return conn) ->
     run_command w host "reboot" args port username password
     = (t ++ [Call ReqReboot], dev_reboot w))
  /\ ~ In ReqLogout
        (calls (trace (run_command w host "reboot" args port username
                         password))).
Proof.
  unfold run_command. cbn [String.eqb Ascii.eqb Bool.eqb andb]. split.
  - intros t conn ->. reflexivity.
  - destruct (connect_cases w host port username password)
      as [(e & _ & ->) | [(e & _ & ->) | (addr & serv & ->)]];
      [destruct e; simpl; tauto|simpl; tauto|].
    destruct (dev_connect w addr serv username password) as [[]|e];
      [|destruct e]; simpl; intuition discriminate.
Qed.

Lemma reboot_without_logout_witness :
  run_command (sample_world ∅ (Return tt)) "cam" "reboot" ["now"] "34567"
    "admin" "secret"
  = ([Call (ReqConnect "cam" 34567 "admin" "secret"); Call ReqReboot],
     Return tt).
Proof.
  exact (proj1 (reboot_without_logout (sample_world ∅ (Return tt)) "cam"
                  ["now"] "34567" "admin" "secret")
           [Call (ReqConnect "cam" 34567 "admin" "secret")] Client eq_refl).
Defined.

(** X18. The arguments of [info] are checked only after the login: with
    any argument after the command, [-h] included, [run] connects first,
    then prints the usage line of [info] and logs out; it exits with status
    0 for [-h] alone and with [EX_USAGE] otherwise, unless the logout
    raises. *)
Theorem info_usage_after_login (w : World) (host : string)
    (args : list string) (port username password : string)
    (t : list event) (conn : DVRIPClient) :
  connect w host port username password = (t, Return conn) ->
  args <> [] ->
  run_command w host "info" args port username password =
  (t ++ [Print (if bool_decide (args = ["-h"]) then stdout else stderr)
               ("Usage: " +:+ prog w +:+ " ... info");
         Call ReqLogout],
   match dev_logout w with
   | Raise e => Raise e
   | Return _ =>
       Raise (SystemExit (if bool_decide (args = ["-h"]) then 0
                          else EX_USAGE))
   end).
Proof.
  intros Hconnect Hargs. destruct args as [|a args]; [contradiction|].
  unfold run_command. cbn [String.eqb Ascii.eqb Bool.eqb andb].
  rewrite Hconnect. unfold run_info.
  destruct (bool_decide (a :: args = ["-h"])); reflexivity.
Qed.

Lemma info_usage_after_login_witness :
  run_command (sample_world ∅ (Return tt)) "cam" "info" ["-h"] "34567"
    "admin" "secret"
  = ([Call (ReqConnect "cam" 34567 "admin" "secret");
      Print stdout "Usage: dvrip ... info"; Call ReqLogout],
     Raise (SystemExit 0)).
Proof.
  exact (info_usage_after_login (sample_world ∅ (Return tt)) "cam" ["-h"]
           "34567" "admin" "secret"
           [Call (ReqConnect "cam" 34567 "admin" "secret")] Client eq_refl
           ltac:(discriminate)).
Defined.

(** [run_time] in full, by the number of its arguments. *)
Lemma run_time_cases (w : World) (conn : DVRIPClient) (args : list string) :
  run_time w conn args = time_usage_exit w
  \/ (args = []
      /\ run_time w conn args = time_printed w ReqGetTime (dev_time w None))
  \/ (exists a rest t,
        args = a :: rest /\ (length rest <= 1)%nat
        /\ dateparse w a = Some t /\ tzinfo t = None
        /\ run_time w conn args =
           time_printed w (ReqSetTime t) (dev_time w (Some t))).
Proof.
  destruct args as [|a rest].
  - right; left. split; [reflexivity|apply run_time_no_argument].
  - destruct (le_lt_dec (length rest) 1) as [Hle|Hgt].
    + rewrite run_time_first by exact Hle.
      destruct (dateparse w a) as [t|] eqn:Hparse; [|left; reflexivity].
      destruct (tzinfo t) as [tz|] eqn:Htz; [left; reflexivity|].
      right; right. exists a, rest, t. auto.
    + left. destruct rest as [|b [|c rest]]; simpl in Hgt; try lia.
      apply run_time_many_arguments.
Qed.

(** X19. [run_time] never sends a timezone-aware time to the device.  A
    set-time request carries the naive time parsed from the first of at
    most two arguments; and whatever the arguments, [run_time] issues at
    most one request. *)
Theorem run_time_sets_naive (w : World) (conn : DVRIPClient)
    (args : list string) (t : datetime) :
  In (ReqSetTime t) (calls (trace (run_time w conn args))) ->
  tzinfo t = None
  /\ (exists a rest, args = a :: rest /\ (length rest <= 1)%nat
                     /\ dateparse w a = Some t)
  /\ calls (trace (run_time w conn args)) = [ReqSetTime t].
Proof.
  intros Hin.
  destruct (run_time_cases w conn args)
    as [Hrun | [(_ & Hrun) | (a & rest & t' & -> & Hlen & Hparse & Htz & Hrun)]];
    rewrite Hrun in Hin |- *.
  - simpl in Hin. contradiction.
  - unfold time_printed in Hin. destruct (dev_time w None); simpl in Hin;
      intuition discriminate.
  - assert (t' = t) as ->.
    { unfold time_printed in Hin.
      destruct (dev_time w (Some t')); simpl in Hin;
        destruct Hin as [Heq|[]]; inversion Heq; reflexivity. }
    split; [exact Htz|]. split; [eauto|].
    unfold time_printed. destruct (dev_time w (Some t)); reflexivity.
Qed.

Lemma run_time_sets_naive_witness :
  tzinfo new_year = None
  /\ (exists a rest, ["2024-01-01 00:00:00"] = a :: rest
                     /\ (length rest <= 1)%nat
                     /\ dateparse (sample_world ∅ (Return tt)) a
                        = Some new_year)
  /\ calls (trace (run_time (sample_world ∅ (Return tt)) Client
                     ["2024-01-01 00:00:00"]))
     = [ReqSetTime new_year].
Proof.
  exact (run_time_sets_naive (sample_world ∅ (Return tt)) Client
           ["2024-01-01 00:00:00"] new_year (or_introl eq_refl)).
Defined.

(** ** The password prompt *)

Lemma prompts_app (t t' : list event) :
  prompts (t ++ t') = prompts t ++ prompts t'.
Proof. apply omap_app. Qed.

Lemma prompts_prints (file : stream) (ls : list string) :
  prompts (map (Print file) ls) = [].
Proof. induction ls as [|l ls IH]; [reflexivity|exact IH]. Qed.

Lemma prompts_bind {A B} (m : io A) (f : A -> io B) :
  prompts (trace (m ≫= f)) =
  prompts (trace m)
  ++ match result m with
     | Return a => prompts (trace (f a))
     | Raise _ => []
     end.
Proof.
  rewrite trace_bind. destruct (result m); [apply prompts_app|].
  rewrite app_nil_r. reflexivity.
Qed.

Lemma prompts_connect (w : World) (host port user password : string) :
  prompts (trace (connect w host port user password)) = [].
Proof.
  destruct (connect_cases w host port user password)
    as [(e & _ & ->) | [(e & _ & ->) | (addr & serv & ->)]];
    [destruct e; reflexivity|reflexivity|].
  destruct (dev_connect w addr serv user password) as [[]|e];
    [|destruct e]; reflexivity.
Qed.

Lemma prompts_run_info (w : World) (conn : DVRIPClient) (args : list string) :
  prompts (trace (run_info w conn args)) = [].
Proof.
  destruct args as [|a args].
  - rewrite run_info_no_argument.
    destruct (dev_systeminfo w) as [info|e]; [|reflexivity].
    destruct (dev_storageinfo w) as [disks|e]; [|reflexivity].
    destruct (dev_activityinfo w) as [actv|e];
      [destruct (dev_time w None) as [time|e]|].
    all: cbn [trace fst]; rewrite !prompts_app, ?prompts_prints; reflexivity.
  - unfold run_info. destruct (bool_decide (a :: args = ["-h"])); reflexivity.
Qed.

Lemma no_prompt_of_prompts (t : list event) :
  prompts t = [] -> no_prompt t.
Proof.
  induction t as [|ev t IH]; intros Hnone p Hin; [destruct Hin|].
  destruct ev as [file text|r|q]; simpl in Hnone; try discriminate Hnone;
    destruct Hin as [Heq|Hin]; try discriminate Heq;
    exact (IH Hnone p Hin).
Qed.

(** X8. The requests of [run_info] are decided by its arguments and by the
    replies: with any argument it issues none; without arguments it issues
    system info, then storage info only if system info returned, then
    activity info only if storage info returned, then time only if activity
    info returned, each once.  So the requests are always a beginning of
    these four, none follows one that failed, [run_info] never sets the
    time, reboots or logs out, and it never asks for the password. *)
Theorem run_info_requests (w : World) (conn : DVRIPClient)
    (args : list string) :
  calls (trace (run_info w conn args)) =
  match args with
  | _ :: _ => []
  | [] =>
      ReqSystemInfo ::
      match dev_systeminfo w with
      | Raise _ => []
      | Return _ =>
          ReqStorageInfo ::
          match dev_storageinfo w with
          | Raise _ => []
          | Return _ =>
              ReqActivityInfo ::
              match dev_activityinfo w with
              | Raise _ => []
              | Return _ => [ReqGetTime]
              end
          end
      end
  end
  /\ calls (trace (run_info w conn args))
       `prefix_of` [ReqSystemInfo; ReqStorageInfo; ReqActivityInfo; ReqGetTime]
  /\ no_prompt (trace (run_info w conn args)).
Proof.
  assert (calls (trace (run_info w conn args)) =
          match args with
          | _ :: _ => []
          | [] =>
              ReqSystemInfo ::
              match dev_systeminfo w with
              | Raise _ => []
              | Return _ =>
                  ReqStorageInfo ::
                  match dev_storageinfo w with
                  | Raise _ => []
                  | Return _ =>
                      ReqActivityInfo ::
                      match dev_activityinfo w with
                      | Raise _ => []
                      | Return _ => [ReqGetTime]
                      end
                  end
              end
          end) as Hcalls.
  { destruct args as [|a args].
    - rewrite run_info_no_argument.
      destruct (dev_systeminfo w) as [info|e]; [|reflexivity].
      destruct (dev_storageinfo w) as [disks|e]; [|reflexivity].
      destruct (dev_activityinfo w) as [actv|e];
        [destruct (dev_time w None) as [time|e]|].
      all: cbn [trace fst].
      all: rewrite ?app_assoc, ?calls_app, ?calls_prints, ?app_nil_r.
      all: reflexivity.
    - unfold run_info.
      destruct (bool_decide (a :: args = ["-h"])); reflexivity. }
  split; [exact Hcalls|]. split.
  - rewrite Hcalls. destruct args as [|a args]; [|apply prefix_nil].
    destruct (dev_systeminfo w);
      [|by exists [ReqStorageInfo; ReqActivityInfo; ReqGetTime]].
    destruct (dev_storageinfo w); [|by exists [ReqActivityInfo; ReqGetTime]].
    destruct (dev_activityinfo w); [by exists []|by exists [ReqGetTime]].
  - apply no_prompt_of_prompts, prompts_run_info.
Qed.

Lemma prompts_run_time (w : World) (conn : DVRIPClient) (args : list string) :
  prompts (trace (run_time w conn args)) = [].
Proof.
  destruct (run_time_cases w conn args)
    as [-> | [(_ & ->) | (a & rest & t & _ & _ & _ & _ & ->)]];
    [reflexivity| |]; unfold time_printed.
  - destruct (dev_time w None); reflexivity.
  - destruct (dev_time w (Some t)); reflexivity.
Qed.

Lemma prompts_run_opts (w : World) (n : nat) (opts : list (string * string))
    (port username : string) :
  prompts (trace (run_opts w n opts port username)) = [].
Proof.
  revert port username.
  induction opts as [|[opt arg] opts IH]; intros port username;
    [reflexivity|].
  cbn [run_opts]. rewrite prompts_bind, IH.
  destruct (String.eqb opt "-h"); [|reflexivity].
  destruct (n =? 1)%nat; reflexivity.
Qed.

Lemma prompts_run_command (w : World) (host command : string)
    (args : list string) (port username password : string) :
  prompts (trace (run_command w host command args port username password))
  = [].
Proof.
  unfold run_command.
  destruct (String.eqb command "reboot");
    [|destruct (String.eqb command "info");
      [|destruct (String.eqb command "time"); [|reflexivity]]].
  all: rewrite prompts_bind, prompts_connect.
  all: destruct (result (connect w host port username password)) as [conn|e];
    [|reflexivity].
  all: rewrite ?trace_try_finally, ?prompts_app, ?prompts_run_info,
         ?prompts_run_time; reflexivity.
Qed.

Lemma run_password_cases (w : World) :
  (exists password,
     environ w !! "DVR_PASSWORD" = Some password
     /\ run_password w = ([], Return password))
  \/ (environ w !! "DVR_PASSWORD" = None
      /\ exists r, run_password w = ([Getpass "Password: "], r)).
Proof.
  unfold run_password.
  destruct (environ w !! "DVR_PASSWORD") as [password|]; [left; eauto|].
  right. split; [reflexivity|].
  destruct (getpass w "Password: ") as [password|e]; [|destruct e]; eauto.
Qed.

(** X20. [run] asks for the password at most once, and not at all when
    [DVR_PASSWORD] is set: then the front end never prompts, whatever the
    command line and whatever the device replies. *)
Theorem run_prompts_once (w : World) (args : list string) :
  (prompts (trace (run w args)) = []
   \/ prompts (trace (run w args)) = ["Password: "])
  /\ (forall password,
        environ w !! "DVR_PASSWORD" = Some password ->
        prompts (trace (run w args)) = []).
Proof.
  assert (prompts (trace (run w args)) = []
          \/ environ w !! "DVR_PASSWORD" = None
             /\ prompts (trace (run w args)) = ["Password: "]) as Hrun.
  { unfold run.
    destruct (getopt w args) as [[opts [|host [|command rest]]]|];
      try (left; reflexivity).
    destruct (command_ok w command); [|left; reflexivity].
    cbn [negb]. rewrite !prompts_bind. cbn [trace result fst snd mret io_ret ret].
    rewrite prompts_run_opts.
    destruct (result (run_opts _ _ _ _ _)) as [[port username]|e];
      [|left; reflexivity].
    rewrite prompts_bind.
    destruct (run_password_cases w)
      as [(password & _ & ->) | (Henv & r & ->)]; cbn [trace result fst snd].
    - left. apply prompts_run_command.
    - right. split; [exact Henv|].
      destruct r as [password|e]; [rewrite prompts_run_command|];
        reflexivity. }
  split; [tauto|].
  intros password Henv. destruct Hrun as [Hrun|[Hnone _]]; [exact Hrun|].
  rewrite Henv in Hnone. discriminate Hnone.
Qed.

Lemma run_prompts_once_witness :
  prompts (trace (run (sample_world {["DVR_PASSWORD" := "pw"]} (Return tt))
                    ["cam"; "time"]))
  = [].
Proof.
  exact (proj2 (run_prompts_once
                  (sample_world {["DVR_PASSWORD" := "pw"]} (Return tt))
                  ["cam"; "time"])
           "pw" eq_refl).
Defined.

(** ** [connect]: a lookup that raises something else *)

(** X21. The [except] clauses around the two lookups catch [OSError] only.
    Any other exception a lookup raises (the [UnicodeError] of a host name
    with an empty label, say) leaves [connect] as it is, before the socket
    is created: nothing is printed and nothing is sent to the device. *)
Theorem connect_lookup_lets_through (w : World)
    (host port user password : string) (e : exn) :
  uncaught_by_lookup e = true ->
  (int_base0 w port = None -> getservbyname w port = Raise e ->
   connect w host port user password = ([], Raise e))
  /\ (forall serv,
        resolves_port w port serv -> gethostbyname w host = Raise e ->
        connect w host port user password = ([], Raise e)).
Proof.
  intros He. split.
  - intros Hint Hserv.
    rewrite (connect_service_raises w host port user password e)
      by assumption.
    destruct e; try discriminate He; reflexivity.
  - intros serv Hport Hhost.
    rewrite (connect_host_raises w host port user password serv e)
      by assumption.
    destruct e; try discriminate He; reflexivity.
Qed.

Lemma connect_lookup_lets_through_witness :
  connect (sample_world ∅ (Return tt)) "a..b" "34567" "admin" "secret"
  = ([], Raise (OtherError "UnicodeError")).
Proof.
  exact (proj2 (connect_lookup_lets_through (sample_world ∅ (Return tt))
                  "a..b" "34567" "admin" "secret"
                  (OtherError "UnicodeError") eq_refl)
           34567 (or_introl eq_refl) eq_refl).
Defined.
